(** * OpenHands SDK shim: configuration resolver, client facade, DeepSeek CLI

    A shallow embedding of [sdk/config.py], [sdk/openhands_client.py] and the
    file-based commands of [sdk/deepseek_cli.py], with the properties the
    specification states about them.

    Conventions.
    - A Python [str] is a [string]; the [str] methods the code calls
      ([find], [rfind], [in], slicing, [split], [join], [startswith]) are
      written out in [PyStr] with Python's conventions ([-1] for "not found",
      negative and out-of-range slice bounds).
    - A raised exception is a value of [exn]; a fallible pure function returns
      [exn + A].
    - Code that talks to the outside world (console, host file system, the
      OpenHands runtime, the Ollama server) is a [prog]: a tree of effect
      requests, each answered by the environment with a value or an exception.
      [run] executes a [prog] against an arbitrary handler. *)

From Stdlib Require Import String Ascii List ZArith Lia Bool DecimalString.
Import ListNotations.
Open Scope string_scope.

(* ================================================================== *)
(** ** Exceptions *)

Inductive exn : Type :=
| ValueError (msg : string)
| AttributeError (msg : string)
| IndexError (msg : string)
| ImportError (msg : string)
| FileNotFoundError (msg : string)
| OtherError (cls msg : string).

(* ================================================================== *)
(** ** Python string and list primitives *)

Module PyStr.

(** The one-character string ['\n']. *)
Definition newline : ascii := "010"%char.
Definition nl : string := String newline "".

Definition len (s : string) : Z := Z.of_nat (String.length s).

Fixpoint drop (n : nat) (s : string) : string :=
  match n, s with
  | O, _ => s
  | S _, EmptyString => EmptyString
  | S n', String _ s' => drop n' s'
  end.

Fixpoint take (n : nat) (s : string) : string :=
  match n, s with
  | O, _ => EmptyString
  | S _, EmptyString => EmptyString
  | S n', String c s' => String c (take n' s')
  end.

(** Normalisation of one slice bound: a negative bound counts from the
    end, and every bound is clamped to [0 .. n]. *)
Definition clamp (n i : Z) : Z :=
  if (i <? 0)%Z then Z.max (i + n) 0 else Z.min i n.

(** [s[i:j]] *)
Definition slice (s : string) (i j : Z) : string :=
  let lo := clamp (len s) i in
  let hi := clamp (len s) j in
  take (Z.to_nat (hi - lo)) (drop (Z.to_nat lo) s).

(** [s.startswith(pat)] *)
Definition startswith (s pat : string) : bool := String.prefix pat s.

(** [pat in s] *)
Fixpoint contains (s pat : string) : bool :=
  String.prefix pat s ||
  match s with
  | EmptyString => false
  | String _ s' => contains s' pat
  end.

Fixpoint find_from (pat s : string) (i : Z) : Z :=
  if String.prefix pat s then i
  else match s with
       | EmptyString => (-1)%Z
       | String _ s' => find_from pat s' (i + 1)%Z
       end.

(** [s.find(pat)]: lowest index of an occurrence, [-1] if there is none. *)
Definition find (s pat : string) : Z := find_from pat s 0.

Fixpoint rfind_from (pat s : string) (i : Z) : Z :=
  match s with
  | EmptyString => if String.prefix pat s then i else (-1)%Z
  | String _ s' =>
      let r := rfind_from pat s' (i + 1)%Z in
      if (r =? -1)%Z then (if String.prefix pat s then i else (-1)%Z) else r
  end.

(** [s.rfind(pat)]: highest index of an occurrence, [-1] if there is none. *)
Definition rfind (s pat : string) : Z := rfind_from pat s 0.

(** [s.split(sep)] for a one-character separator (the code only splits on
    ['\n']).  The result is never empty. *)
Fixpoint split (s : string) (sep : ascii) : list string :=
  match s with
  | EmptyString => [EmptyString]
  | String c s' =>
      if Ascii.eqb c sep then EmptyString :: split s' sep
      else match split s' sep with
           | [] => [String c EmptyString]
           | l :: ls => String c l :: ls
           end
  end.

(** [sep.join(ls)] *)
Definition join (sep : string) (ls : list string) : string :=
  String.concat sep ls.

(** The pattern [pat] occurs in [s] at index [i]. *)
Definition occurs_at (pat s : string) (i : nat) : Prop :=
  i <= String.length s /\ String.prefix pat (drop i s) = true.

Fixpoint occurrences_from (pat s : string) (i : nat) : list nat :=
  (if String.prefix pat s then [i] else []) ++
  match s with
  | EmptyString => []
  | String _ s' => occurrences_from pat s' (S i)
  end.

(** Every index at which [pat] occurs in [s] (overlapping occurrences
    included), in increasing order. *)
Definition occurrences (pat s : string) : list nat := occurrences_from pat s 0.

End PyStr.

Module PyList.

(** [l[i]]: a negative index counts from the end; an index outside the
    list raises [IndexError]. *)
Definition getitem {A : Type} (l : list A) (i : Z) : exn + A :=
  let n := Z.of_nat (List.length l) in
  let k := if (i <? 0)%Z then (i + n)%Z else i in
  if ((k <? 0) || (n <=? k))%Z then inl (IndexError "list index out of range")
  else match nth_error l (Z.to_nat k) with
       | Some x => inr x
       | None => inl (IndexError "list index out of range")
       end.

(** [l[1:]] *)
Definition from1 {A : Type} (l : list A) : list A := skipn 1 l.

(** [l[:-1]] *)
Definition upto_last {A : Type} (l : list A) : list A := removelast l.

End PyList.

(* ================================================================== *)
(** ** Code extraction from the agent's final state
       ([OpenHandsClient._extract_code_from_state]) *)

Module Extract.
Import PyStr.

(** The fence delimiter. *)
Definition fence : string := "```".

Section Events.
(** Events and the state object belong to the OpenHands library.  The
    extractor only asks an event two things. *)
Variable event : Type.
(** [hasattr(event, 'content')] *)
Variable has_content : event -> bool.
(** [str(event.content)] *)
Variable content_str : event -> string.

Record State : Type := { history : list event }.

(** Lines 261-273: what is returned once an event passed the test of
    line 260 and [start != end]. *)
Definition strip_fences (content : string) (start end_ : Z) : exn + string :=
  let code := slice content start (end_ + 3) in
  let lines := split code newline in
  match PyList.getitem lines 0 with
  | inl e => inl e
  | inr l0 =>
      let lines := if startswith l0 fence then PyList.from1 lines else lines in
      match PyList.getitem lines (-1) with
      | inl e => inl e
      | inr ll =>
          let lines := if String.eqb ll fence then PyList.upto_last lines
                       else lines in
          inr (join nl lines)
      end
  end.

(** The loop body over the already reversed history. *)
Fixpoint scan (evs : list event) : exn + string :=
  match evs with
  | [] => inr ""
  | ev :: rest =>
      if has_content ev && contains (content_str ev) fence then
        let content := content_str ev in
        let start := find content fence in
        let end_ := rfind content fence in
        if negb (start =? end_)%Z then strip_fences content start end_
        else scan rest
      else scan rest
  end.

Definition _extract_code_from_state (state : State) : exn + string :=
  scan (rev (history state)).

(** The indices at which the fence delimiter occurs in an event's
    textual content. *)
Definition fences (ev : event) : list nat :=
  occurrences fence (content_str ev).

End Events.

(** The fenced block [```python\nX\n```]. *)
Definition python_block (X : string) : string :=
  fence ++ "python" ++ nl ++ X ++ nl ++ fence.

Arguments history {event} _.
Arguments Build_State {event} _.

End Extract.

(* ================================================================== *)
(** ** Dictionaries with string keys, in insertion order *)

Module Dict.

Definition dict (V : Type) : Type := list (string * V).

Fixpoint lookup {V : Type} (k : string) (d : dict V) : option V :=
  match d with
  | [] => None
  | (k', v) :: d' => if String.eqb k k' then Some v else lookup k d'
  end.

(** [k in d] *)
Definition mem {V : Type} (k : string) (d : dict V) : bool :=
  match lookup k d with Some _ => true | None => false end.

(** [list(d.keys())] *)
Definition keys {V : Type} (d : dict V) : list string := map fst d.

(** [d[k]] *)
Definition getitem {V : Type} (d : dict V) (k : string) : exn + V :=
  match lookup k d with
  | Some v => inr v
  | None => inl (OtherError "KeyError" k)
  end.

End Dict.

(* ================================================================== *)
(** ** Configuration resolver ([sdk/config.py]) *)

Module Config.
Import Dict.

(** [repr] of a string without quote, backslash or control character (all
    keys of the mapping are such strings), and of a list of them. *)
Definition repr_str (s : string) : string := "'" ++ s ++ "'".
Definition repr_list (l : list string) : string :=
  "[" ++ String.concat ", " (map repr_str l) ++ "]".

(** [a or b] for an optional string [a]: [None] and [""] are the falsy
    values of the annotated type. *)
Definition truthy (a : option string) : bool :=
  match a with
  | Some s => negb (String.eqb s "")
  | None => false
  end.

Definition py_or (a : option string) (b : string) : string :=
  match a with
  | Some s => if String.eqb s "" then b else s
  | None => b
  end.

Section Environment.
(** The process environment after [load_dotenv()]. *)
Variable environ : string -> option string.

(** [os.getenv(key, default)] *)
Definition getenv (key default : string) : string :=
  match environ key with
  | Some v => v
  | None => default
  end.

Definition LLM_CONFIG : dict (dict string) :=
  [ ("deepseek_local",
      [ ("model", "ollama/deepseek-coder-v2:16b");
        ("api_key", "ollama");
        ("base_url", "http://localhost:11434") ]);
    ("deepseek_api",
      [ ("model", "deepseek-chat");
        ("api_key", getenv "DEEPSEEK_API_KEY" "");
        ("base_url", "https://api.deepseek.com/v1") ]);
    ("openai",
      [ ("model", "gpt-4o");
        ("api_key", getenv "OPENAI_API_KEY" "");
        ("base_url", "https://api.openai.com/v1") ]);
    ("anthropic",
      [ ("model", "claude-sonnet-4-20250514");
        ("api_key", getenv "ANTHROPIC_API_KEY" "");
        ("base_url", "https://api.anthropic.com") ]) ].

Definition DEFAULT_PROVIDER : string := getenv "LLM_PROVIDER" "deepseek_local".

Definition WORKSPACE_DIR : string := getenv "WORKSPACE_DIR" "./workspace".

Definition OPENHANDS_SERVER_URL : string :=
  getenv "OPENHANDS_SERVER_URL" "http://localhost:3000".

(** The message of the [ValueError] of line 51. *)
Definition unknown_provider_message (provider : string) : string :=
  "Unknown provider: " ++ provider ++ ". Available: "
    ++ repr_list (keys LLM_CONFIG).

Definition get_llm_config (provider : option string) : exn + dict string :=
  let provider := py_or provider DEFAULT_PROVIDER in
  if negb (mem provider LLM_CONFIG) then
    inl (ValueError (unknown_provider_message provider))
  else getitem LLM_CONFIG provider.

End Environment.

(** An environment in which none of the variables is set. *)
Definition empty_environ : string -> option string := fun _ => None.

(** An environment that only sets [name]. *)
Definition environ_with (name value : string) : string -> option string :=
  fun k => if String.eqb k name then Some value else None.

End Config.

(* ================================================================== *)
(** ** Programs over an effect signature *)

Module Prog.

(** A program either returns, raises, or asks the environment to perform
    [req] and continues with the answer, which is a value or an exception
    raised by the callee. *)
Inductive prog (E : Type -> Type) (A : Type) : Type :=
| Ret (a : A)
| Raise (e : exn)
| Vis (X : Type) (req : E X) (k : exn + X -> prog E A).

Arguments Ret {E A} a.
Arguments Raise {E A} e.
Arguments Vis {E A X} req k.

Fixpoint bind {E : Type -> Type} {A B : Type}
         (p : prog E A) (f : A -> prog E B) : prog E B :=
  match p with
  | Ret a => f a
  | Raise e => Raise e
  | Vis req k => Vis req (fun r => bind (k r) f)
  end.

(** Perform [req]; an exception of the callee propagates. *)
Definition call {E : Type -> Type} {X : Type} (req : E X) : prog E X :=
  Vis req (fun r => match r with inl e => Raise e | inr x => Ret x end).

(** Lift a fallible pure computation. *)
Definition lift {E : Type -> Type} {A : Type} (r : exn + A) : prog E A :=
  match r with inl e => Raise e | inr a => Ret a end.

(** [try: p  except <those e with h e = Some q>: q] *)
Fixpoint try_except {E : Type -> Type} {A : Type}
         (p : prog E A) (h : exn -> option (prog E A)) : prog E A :=
  match p with
  | Ret a => Ret a
  | Raise e => match h e with Some q => q | None => Raise e end
  | Vis req k => Vis req (fun r => try_except (k r) h)
  end.

(** [for x in l: body x] *)
Fixpoint for_each {E : Type -> Type} {X : Type}
         (l : list X) (body : X -> prog E unit) : prog E unit :=
  match l with
  | [] => Ret tt
  | x :: l' => bind (body x) (fun _ => for_each l' body)
  end.

Section Run.
Context {E : Type -> Type} {W : Type}.
(** How the environment, in state [w], answers a request. *)
Variable handler : forall X : Type, E X -> W -> (exn + X) * W.

Fixpoint run {A : Type} (p : prog E A) (w : W) : (exn + A) * W :=
  match p with
  | Ret a => (inr a, w)
  | Raise e => (inl e, w)
  | Vis req k => let (r, w') := handler _ req w in run (k r) w'
  end.
End Run.

Declare Scope prog_scope.
Delimit Scope prog_scope with prog.
Notation "x <- c ;; k" := (bind c (fun x => k))
  (at level 61, c at next level, right associativity) : prog_scope.
Notation "c ;; k" := (bind c (fun _ => k))
  (at level 61, right associativity) : prog_scope.

End Prog.

(* ================================================================== *)
(** ** Client facade ([sdk/openhands_client.py]) *)

Module Client.
Import Prog Dict.

(** *** Value objects of the OpenHands library

    Actions carry what the client puts into them, observations the
    attributes the client reads. *)

Inductive action : Type :=
| CmdRunAction (command : string)
| FileWriteAction (path content : string)
| FileReadAction (path : string)
| BrowseURLAction (url : string)
| MessageAction (content : string).

Inductive observation : Type :=
| CmdOutputObservation (content : string)
| FileReadObservation (content : string)
| FileWriteObservation (content : string)
| BrowserOutputObservation (url content screenshot : string)
| OtherObservation (cls content : string).

Record LLMConfig : Type :=
  { model : string; api_key : string; base_url : string }.
Record SandboxConfig : Type := { base_container_image : string }.
Record AppConfig : Type :=
  { llm : LLMConfig; sandbox : SandboxConfig; workspace_base : string }.

(** What [console.print] is given. *)
Inductive renderable : Type :=
| Text (s : string)
| Panel (body title : string).

(** *** The parts of the outside world the client is written against:
    [pathlib], the process environment, and the opaque objects of the
    OpenHands library. *)
Class External : Type :=
  { (** [pathlib.Path] *)
    Path : Type;
    mkPath : string -> Path;
    resolve : Path -> Path;
    joinpath : Path -> string -> Path;
    parent : Path -> Path;
    path_str : Path -> string;
    (** [os.environ] after [load_dotenv()] *)
    environ : string -> option string;
    (** whether [import openhands] succeeded *)
    OPENHANDS_AVAILABLE : bool;
    (** the runtime handle returned by [create_runtime] *)
    Runtime : Type;
    (** events of [state.history] *)
    event : Type;
    has_content : event -> bool;
    content_str : event -> string;
    (** [str(observation)] *)
    observation_str : observation -> string }.

Section Facade.
Context {ext : External}.

Definition State : Type := Extract.State event.

(** Requests of the client to the outside world. *)
Inductive eff : Type -> Type :=
| ConsolePrint (message : renderable) : eff unit
| PathMkdir (p : Path) : eff unit
| CreateRuntime (cfg : AppConfig) : eff Runtime
| RuntimeClose (rt : Runtime) : eff unit
| RuntimeRunAction (rt : Runtime) (a : action) : eff observation
| RunController (cfg : AppConfig) (initial_user_action : action)
                (rt : option Runtime) (max_iterations : Z) : eff State.

Record OpenHandsClient : Type :=
  { provider : string;
    workspace_dir : Path;
    verbose : bool;
    config : AppConfig;
    runtime : option Runtime }.

Definition set_runtime (self : OpenHandsClient) (rt : option Runtime) :
  OpenHandsClient :=
  {| provider := provider self;
     workspace_dir := workspace_dir self;
     verbose := verbose self;
     config := config self;
     runtime := rt |}.

(** A method: a program that reads and may update [self]. *)
Definition method (A : Type) : Type :=
  OpenHandsClient -> prog eff (A * OpenHandsClient).

Definition mret {A : Type} (a : A) : method A := fun self => Ret (a, self).

Definition mbind {A B : Type} (m : method A) (f : A -> method B) : method B :=
  fun self => bind (m self) (fun r => f (fst r) (snd r)).

Definition get_self : method OpenHandsClient := fun self => Ret (self, self).

Definition put_self (self' : OpenHandsClient) : method unit :=
  fun _ => Ret (tt, self').

Definition perform {X : Type} (req : eff X) : method X :=
  fun self => bind (call req) (fun x => Ret (x, self)).

Definition mraise {A : Type} (e : exn) : method A := fun _ => Raise e.

Definition mlift {A : Type} (r : exn + A) : method A :=
  match r with inl e => mraise e | inr a => mret a end.

Notation "x <- c ;; k" := (mbind c (fun x => k))
  (at level 61, c at next level, right associativity).
Notation "c ;; k" := (mbind c (fun _ => k))
  (at level 61, right associativity).

Definition _log (message : renderable) : method unit :=
  self <- get_self ;;
  if verbose self then perform (ConsolePrint message) else mret tt.

Definition __init__ (provider : string) (workspace_dir : option string)
           (verbose : bool) : prog eff OpenHandsClient :=
  if negb OPENHANDS_AVAILABLE then
    Raise (ImportError "OpenHands SDK not installed. Run: pip install openhands-ai")
  else
    let ws := resolve (mkPath (Config.py_or workspace_dir
                                 (Config.WORKSPACE_DIR environ))) in
    bind (call (PathMkdir ws)) (fun _ =>
    bind (lift (Config.get_llm_config environ (Some provider))) (fun llm_config =>
    bind (lift (getitem llm_config "model")) (fun m =>
    bind (lift (getitem llm_config "api_key")) (fun k =>
    bind (lift (getitem llm_config "base_url")) (fun u =>
    let self :=
      {| provider := provider;
         workspace_dir := ws;
         verbose := verbose;
         config :=
           {| llm := {| model := m; api_key := k; base_url := u |};
              sandbox := {| base_container_image :=
                  "docker.all-hands.dev/all-hands-ai/runtime:main" |};
              workspace_base := path_str ws |};
         runtime := None |} in
    bind ((_log (Text ("✅ OpenHands client initialized with " ++ provider)) ;;
           _log (Text ("📁 Workspace: " ++ path_str ws))) self)
         (fun r => Ret (snd r))))))).

Definition start : method OpenHandsClient :=
  _log (Text "🚀 Starting OpenHands runtime...") ;;
  self <- get_self ;;
  rt <- perform (CreateRuntime (config self)) ;;
  put_self (set_runtime self (Some rt)) ;;
  _log (Text "✅ Runtime started") ;;
  get_self.

(** [if self.runtime:] is the test against [None]: a runtime object is
    truthy. *)
Definition stop : method unit :=
  self <- get_self ;;
  match runtime self with
  | Some rt =>
      perform (RuntimeClose rt) ;;
      _log (Text "🛑 Runtime stopped")
  | None => mret tt
  end.

(** [await self.runtime.run_action(action)]: the attribute lookup on
    [None] raises before anything is sent. *)
Definition runtime_run_action (a : action) : method observation :=
  self <- get_self ;;
  match runtime self with
  | Some rt => perform (RuntimeRunAction rt a)
  | None =>
      mraise (AttributeError "'NoneType' object has no attribute 'run_action'")
  end.

Definition run_command (command : string) : method string :=
  _log (Text ("💻 Running: " ++ command)) ;;
  let action := CmdRunAction command in
  observation <- runtime_run_action action ;;
  match observation with
  | CmdOutputObservation output =>
      _log (Text ("📤 Output:" ++ PyStr.nl ++ output)) ;;
      mret output
  | _ => mret (observation_str observation)
  end.

Definition read_file (filepath : string) : method string :=
  self <- get_self ;;
  let full_path := joinpath (workspace_dir self) filepath in
  _log (Text ("📖 Reading: " ++ path_str full_path)) ;;
  let action := FileReadAction (path_str full_path) in
  observation <- runtime_run_action action ;;
  match observation with
  | FileReadObservation content => mret content
  | _ => mret (observation_str observation)
  end.

Definition write_file (filepath content : string) : method bool :=
  self <- get_self ;;
  let full_path := joinpath (workspace_dir self) filepath in
  perform (PathMkdir (parent full_path)) ;;
  _log (Text ("📝 Writing: " ++ path_str full_path)) ;;
  let action := FileWriteAction (path_str full_path) content in
  observation <- runtime_run_action action ;;
  let success :=
    match observation with FileWriteObservation _ => true | _ => false end in
  (if success then _log (Text "✅ File written successfully") else mret tt) ;;
  mret success.

Definition browse_url (url : string) : method (dict string) :=
  _log (Text ("🌐 Browsing: " ++ url)) ;;
  let action := BrowseURLAction url in
  observation <- runtime_run_action action ;;
  match observation with
  | BrowserOutputObservation u c s =>
      mret [ ("url", u); ("content", c); ("screenshot", s) ]
  | _ => mret [ ("content", observation_str observation) ]
  end.

Definition ask (task : string) (max_iterations : Z) : method State :=
  _log (Panel ("🤖 Task: " ++ task) "OpenHands Agent") ;;
  self <- get_self ;;
  state <- perform (RunController (config self) (MessageAction task)
                                  (runtime self) max_iterations) ;;
  _log (Text "✅ Task completed") ;;
  mret state.

Definition _extract_code_from_state (state : State) : exn + string :=
  Extract._extract_code_from_state event has_content content_str state.

Definition code_task_prompt (task language : string) : string :=
  "Write " ++ language ++ " code to: " ++ task ++ "

Requirements:
- Write clean, well-documented code
- Include error handling
- Make it production-ready
- Only output the code, no explanations
".

Definition code_task (task language : string) (filename : option string) :
  method string :=
  let prompt := code_task_prompt task language in
  state <- ask prompt 5 ;;
  code <- mlift (_extract_code_from_state state) ;;
  match filename with
  | Some f => if negb (String.eqb f "")
              then write_file f code ;; mret tt
              else mret tt
  | None => mret tt
  end ;;
  mret code.

(** *** Synchronous wrapper

    [_run] drives a coroutine to completion on the wrapper's own event
    loop and hands back its result or its exception; the loop itself is
    not modelled. *)
Record OpenHandsSync : Type := { _client : OpenHandsClient }.

Definition sync_method (A : Type) : Type :=
  OpenHandsSync -> prog eff (A * OpenHandsSync).

Definition _run {A : Type} (coro : method A) : sync_method A :=
  fun self =>
    bind (coro (_client self))
         (fun r => Ret (fst r, {| _client := snd r |})).

Definition sync__init__ (provider : string) (workspace_dir : option string)
           (verbose : bool) : prog eff OpenHandsSync :=
  bind (__init__ provider workspace_dir verbose)
       (fun c => Ret {| _client := c |}).

Definition sync_start : sync_method OpenHandsClient := _run start.
Definition sync_stop : sync_method unit := _run stop.
Definition sync_run_command (command : string) : sync_method string :=
  _run (run_command command).
Definition sync_write_file (filepath content : string) : sync_method bool :=
  _run (write_file filepath content).
Definition sync_browse_url (url : string) : sync_method (dict string) :=
  _run (browse_url url).
Definition sync_ask (task : string) (max_iterations : Z) : sync_method State :=
  _run (ask task max_iterations).
Definition sync_code_task (task language : string) (filename : option string) :
  sync_method string :=
  _run (code_task task language filename).

Definition create_client (provider : string) (workspace_dir : option string)
           (verbose : bool) : prog eff OpenHandsSync :=
  sync__init__ provider workspace_dir verbose.

End Facade.

End Client.

(* ================================================================== *)
(** ** File-based commands of the DeepSeek CLI ([sdk/deepseek_cli.py]) *)

Module Cli.
Import Prog.
Local Open Scope prog_scope.

Definition DEFAULT_MODEL : string := "deepseek-coder-v2:16b".

(** Requests of the CLI to the outside world.  [OpenRead] stands for
    [with open(filepath, 'r') as f: f.read()].  [OllamaChatStream] stands for
    the course of the lazy iteration over [ollama.chat(..., stream=True)]: it
    is answered with the [content] of the chunks the stream yielded, in
    order, and with the exception that ended the iteration if one did
    ([None] when the stream ran to its end); an [inl] answer is a failure of
    the call itself, before any chunk.  A stream that never ends has no
    answer: [stream_response] does not return on it. *)
Inductive eff : Type -> Type :=
| ConsolePrint (markup : string) : eff unit
| StdoutWrite (text : string) : eff unit
| OpenRead (filepath : string) : eff string
| OllamaChat (model prompt : string) : eff string
| OllamaChatStream (model prompt : string) : eff (list string * option exn).

(** Every chunk that arrived is printed, and is part of [full_response],
    before an exception of the stream leaves the loop; the final
    [print("\n")] and the [return] are reached only when the stream ran to
    its end. *)
Definition stream_response (prompt model : string) : prog eff string :=
  call (ConsolePrint (PyStr.nl ++ "[bold blue]🤖 DeepSeek (" ++ model
                        ++ "):[/bold blue]" ++ PyStr.nl)) ;;
  course <- call (OllamaChatStream model prompt) ;;
  for_each (fst course) (fun content => call (StdoutWrite content)) ;;
  match snd course with
  | Some e => Raise e
  | None =>
      call (StdoutWrite (PyStr.nl ++ PyStr.nl)) ;;
      Ret (String.concat "" (fst course))
  end.

Definition chat (prompt model : string) : prog eff string :=
  call (OllamaChat model prompt).

(** The [try]/[except FileNotFoundError] block shared by the three
    commands: [inr code] when the file was read, [inl ""] for the early
    [return ""]. *)
Definition read_or_report (filepath : string) : prog eff (string + string) :=
  try_except
    (code <- call (OpenRead filepath) ;; Ret (inr code))
    (fun e =>
       match e with
       | FileNotFoundError _ =>
           Some (call (ConsolePrint ("[red]File not found: " ++ filepath
                                       ++ "[/red]")) ;;
                 Ret (inl ""))
       | _ => None
       end).

Definition review_prompt (code : string) : string :=
  "Review this code and provide detailed feedback:

```
" ++ code ++ "
```

Check for:
1. Bugs and errors
2. Security vulnerabilities
3. Performance issues
4. Code style and best practices
5. Suggestions for improvement

Be specific and provide examples.".

Definition review_file (filepath model : string) : prog eff string :=
  r <- read_or_report filepath ;;
  match r with
  | inl early => Ret early
  | inr code => stream_response (review_prompt code) model
  end.

Definition explain_prompt (code : string) : string :=
  "Explain this code in detail:

```
" ++ code ++ "
```

Provide:
1. Overview of what the code does
2. Step-by-step explanation
3. Key concepts used
4. Potential improvements".

Definition explain_file (filepath model : string) : prog eff string :=
  r <- read_or_report filepath ;;
  match r with
  | inl early => Ret early
  | inr code => stream_response (explain_prompt code) model
  end.

Definition fix_prompt (error_info code : string) : string :=
  "Fix this code:" ++ error_info ++ "

```
" ++ code ++ "
```

Provide the corrected code with comments explaining the fixes.".

Definition fix_file (filepath : string) (error : option string)
           (model : string) : prog eff string :=
  r <- read_or_report filepath ;;
  match r with
  | inl early => Ret early
  | inr code =>
      let error_info :=
        match error with
        | Some e => if negb (String.eqb e "")
                    then PyStr.nl ++ "Error: " ++ e else ""
        | None => ""
        end in
      stream_response (fix_prompt error_info code) model
  end.

End Cli.

(* ================================================================== *)
(** ** Console markup

    Both programs print through rich's console ([rich.console.Console]),
    which reads square-bracket tags in the text it is given and raises
    [MarkupError] on a closing tag that closes nothing.  The console is
    outside the repository.  This follows [rich/markup.py] (rich 13): the
    tag pattern [RE_TAGS], [_parse] and the style stack of [render].  Left
    out: [Style.normalize] beyond its fallback [strip().lower()] (rich also
    identifies two spellings of one style, such as [b] and [bold]), the
    parameters of [@] handler tags, and characters outside ASCII in
    [strip] and [lower]. *)

Module Rich.

(** The first character of a tag, [[a-z#/@]]. *)
Definition tag_start (c : ascii) : bool :=
  let n := nat_of_ascii c in
  (Nat.leb 97 n && Nat.leb n 122)
  || Ascii.eqb c "#" || Ascii.eqb c "/" || Ascii.eqb c "@".

(** A byte that continues a UTF-8 character.  Positions count characters. *)
Definition continuation (c : ascii) : bool :=
  let n := nat_of_ascii c in Nat.leb 128 n && Nat.ltb n 192.

Definition is_space (c : ascii) : bool :=
  let n := nat_of_ascii c in
  (Nat.leb 9 n && Nat.leb n 13) || (Nat.leb 28 n && Nat.leb n 32).

Definition lower_char (c : ascii) : ascii :=
  let n := nat_of_ascii c in
  if Nat.leb 65 n && Nat.leb n 90 then ascii_of_nat (n + 32) else c.

Fixpoint lower (s : string) : string :=
  match s with
  | EmptyString => EmptyString
  | String c s' => String (lower_char c) (lower s')
  end.

Fixpoint lstrip (s : string) : string :=
  match s with
  | EmptyString => EmptyString
  | String c s' => if is_space c then lstrip s' else s
  end.

Fixpoint rstrip (s : string) : string :=
  match s with
  | EmptyString => EmptyString
  | String c s' =>
      match rstrip s' with
      | EmptyString => if is_space c then EmptyString else String c EmptyString
      | rest => String c rest
      end
  end.

Definition strip (s : string) : string := rstrip (lstrip s).

(** [Style.normalize], for a name that is not a style definition. *)
Definition normalize (style : string) : string := lower (strip style).

(** [tag_text.partition("=")[0]] *)
Fixpoint tag_name (tag_text : string) : string :=
  match tag_text with
  | EmptyString => EmptyString
  | String c s' => if Ascii.eqb c "=" then EmptyString else String c (tag_name s')
  end.

(** The tags [_parse] yields, each with its position: the matches of
    [RE_TAGS] from left to right (a run of backslashes, an opening bracket,
    one of a-z, #, / and @, then the text up to the next closing bracket,
    with no opening bracket in it), those after an odd number of backslashes
    left out.  [position] is the index of the next
    character, [escapes] the number of backslashes just before it, and
    [pending] the opening bracket last seen, if no closing bracket followed
    yet: its position, whether it is escaped, and the text after it. *)
Fixpoint _parse (markup : string) (position escapes : nat)
         (pending : option (nat * bool * string)) : list (nat * string) :=
  match markup with
  | EmptyString => []
  | String c rest =>
      let position' := if continuation c then position else S position in
      let escapes' := if Ascii.eqb c "\" then S escapes else 0 in
      if Ascii.eqb c "["
      then _parse rest position' escapes' (Some (position, Nat.odd escapes, EmptyString))
      else
        match pending with
        | None => _parse rest position' escapes' None
        | Some (start, escaped, tag_text) =>
            if Ascii.eqb c "]" then
              match tag_text with
              | EmptyString => _parse rest position' escapes' None
              | String c0 _ =>
                  if tag_start c0 && negb escaped
                  then (start, tag_text) :: _parse rest position' escapes' None
                  else _parse rest position' escapes' None
              end
            else _parse rest position' escapes'
                        (Some (start, escaped, tag_text ++ String c EmptyString))
        end
  end.

Definition str_of_nat (n : nat) : string :=
  NilZero.string_of_uint (Nat.to_uint n).

Fixpoint is_open (style_name : string) (style_stack : list string) : bool :=
  match style_stack with
  | [] => false
  | name :: stack => String.eqb name style_name || is_open style_name stack
  end.

(** [pop_style]: removes the innermost open tag called [style_name]. *)
Fixpoint pop_style (style_name : string) (style_stack : list string) : list string :=
  match style_stack with
  | [] => []
  | name :: stack =>
      if String.eqb name style_name then stack else name :: pop_style style_name stack
  end.

(** The loop of [render] over the tags; [style_stack] holds the names of
    the tags opened and not yet closed, innermost first. *)
Fixpoint render (tags : list (nat * string)) (style_stack : list string) : option exn :=
  match tags with
  | [] => None
  | (position, tag_text) :: tags' =>
      match tag_name tag_text with
      | String "/" name =>
          match strip name with
          | EmptyString =>
              match style_stack with
              | [] =>
                  Some (OtherError "MarkupError"
                          ("closing tag '[/]' at position " ++ str_of_nat position
                           ++ " has nothing to close"))
              | _ :: stack => render tags' stack
              end
          | style_name =>
              if is_open (normalize style_name) style_stack
              then render tags' (pop_style (normalize style_name) style_stack)
              else Some (OtherError "MarkupError"
                           ("closing tag '[" ++ tag_text ++ "]' at position "
                            ++ str_of_nat position
                            ++ " doesn't match any open tag"))
          end
      | name => render tags' (normalize name :: style_stack)
      end
  end.

(** The exception the console raises on [markup], if it raises. *)
Definition markup_error (markup : string) : option exn :=
  render (_parse markup 0 0 None) [].

End Rich.

(* ================================================================== *)
(** ** What the client assumes of its environment when files are written
       and read back *)

Module Contract.
Import Prog Client.

Section Handler.
Context {ext : External} {W : Type}.
Variable handler : forall X : Type, eff X -> W -> (exn + X) * W.





(** A method that hands back [self] as it received it whenever it returns. *)
Definition keeps_self {A : Type} (m : method A) : Prop :=
  forall (self self' : OpenHandsClient) (a : A) (w w' : W),
    run handler (m self) w = (inr (a, self'), w') -> self' = self.

End Handler.

End Contract.

(* ================================================================== *)
(** ** A small concrete environment, on which the statements below are
       exercised *)

Module Sample.
Import Prog Client.

Definition sample_has_content (ev : option string) : bool :=
  match ev with Some _ => true | None => false end.

Definition sample_content_str (ev : option string) : string :=
  match ev with Some s => s | None => "" end.

Definition sample_observation_str (o : observation) : string :=
  match o with
  | CmdOutputObservation c => c
  | FileReadObservation c => c
  | FileWriteObservation c => c
  | BrowserOutputObservation _ c _ => c
  | OtherObservation cls c => cls ++ ": " ++ c
  end.

(** Paths as plain strings, no variable set in the environment, runtime
    handles as numbers, events as optional strings. *)
#[local] Instance sample_ext : External :=
  {| Path := string;
     mkPath := fun s => s;
     resolve := fun p => p;
     joinpath := fun p f => p ++ "/" ++ f;
     parent := fun p => p ++ "/..";
     path_str := fun p => p;
     environ := Config.empty_environ;
     OPENHANDS_AVAILABLE := true;
     Runtime := nat;
     event := option string;
     has_content := sample_has_content;
     content_str := sample_content_str;
     observation_str := sample_observation_str |}.

(** The console and an in-memory file store. *)
Record world : Type :=
  { console : list renderable; files : Dict.dict string }.

Definition sample_run_action (a : action) (w : world) : observation * world :=
  match a with
  | CmdRunAction _ => (CmdOutputObservation "", w)
  | FileWriteAction p c =>
      (FileWriteObservation "", {| console := console w; files := (p, c) :: files w |})
  | FileReadAction p =>
      match Dict.lookup p (files w) with
      | Some c => (FileReadObservation c, w)
      | None => (OtherObservation "ErrorObservation" ("File not found: " ++ p), w)
      end
  | BrowseURLAction u =>
      if String.prefix "http" u
      then (BrowserOutputObservation u "<html></html>" "", w)
      else (OtherObservation "ErrorObservation" "invalid url", w)
  | MessageAction _ => (OtherObservation "NullObservation" "", w)
  end.

Definition sample_handler (X : Type) (req : eff X) (w : world) : (exn + X) * world :=
  match req in eff X return (exn + X) * world with
  | ConsolePrint m =>
      (inr tt, {| console := (console w ++ [m])%list; files := files w |})
  | PathMkdir _ => (inr tt, w)
  | CreateRuntime _ => (inr 0, w)
  | RuntimeClose _ => (inr tt, w)
  | RuntimeRunAction _ a =>
      let (o, w') := sample_run_action a w in (inr o, w')
  | RunController _ _ _ _ => (inr (Extract.Build_State []), w)
  end.

Definition empty_world : world := {| console := []; files := [] |}.

Definition sample_config : AppConfig :=
  {| llm := {| model := "ollama/deepseek-coder-v2:16b";
               api_key := "ollama";
               base_url := "http://localhost:11434" |};
     sandbox := {| base_container_image :=
                     "docker.all-hands.dev/all-hands-ai/runtime:main" |};
     workspace_base := "./workspace" |}.

(** A client as [__init__] leaves it, and the same client after [start]. *)
Definition fresh_client : OpenHandsClient :=
  {| provider := "deepseek_local";
     workspace_dir := "./workspace";
     verbose := true;
     config := sample_config;
     runtime := None |}.

Definition started_client : OpenHandsClient := set_runtime fresh_client (Some 0).

End Sample.

(* ================================================================== *)
(** ** More on programs: [finally] and the requests a program can make *)

Module ProgMore.
Import Prog.

(** [try: p  finally: fin].  [fin] runs whether [p] returns or raises; an
    exception of [fin] replaces the outcome of [p]. *)
Fixpoint try_finally {E : Type -> Type} {A : Type}
         (p : prog E A) (fin : prog E unit) : prog E A :=
  match p with
  | Ret a => bind fin (fun _ => Ret a)
  | Raise e => bind fin (fun _ => Raise e)
  | Vis req k => Vis req (fun r => try_finally (k r) fin)
  end.

(** Every request [p] can make, however its requests are answered,
    satisfies [P]. *)
Fixpoint requests_all {E : Type -> Type} {A : Type}
         (P : forall X : Type, E X -> Prop) (p : prog E A) : Prop :=
  match p with
  | Ret _ => True
  | Raise _ => True
  | Vis req k => P _ req /\ forall r, requests_all P (k r)
  end.

End ProgMore.

(* ================================================================== *)
(** ** The wrapper as a context manager
       ([OpenHandsSync.__enter__], [OpenHandsSync.__exit__]) *)

Module ClientUse.
Import Prog ProgMore Client.

Section Facade.
Context {ext : External}.

(** [self.start(); return self] *)
Definition sync__enter__ : sync_method OpenHandsSync :=
  fun self => bind (sync_start self) (fun r => Ret (snd r, snd r)).

(** [self.stop()]; the result is [None], so an exception of the body is
    not suppressed. *)
Definition sync__exit__ : sync_method unit := sync_stop.

(** [with mgr as client: body(client)] for a body that uses the client
    without calling [start] on it again (every other method hands the client
    back as it got it), so that [__exit__] sees the wrapper as [__enter__]
    left it.  [__exit__] runs whether the body returns or raises; when
    [__enter__] raises, neither the body nor [__exit__] runs. *)
Definition with_client {A : Type} (body : OpenHandsSync -> prog eff A) :
  sync_method A :=
  fun mgr =>
    bind (sync__enter__ mgr) (fun r =>
      let client := fst r in
      let mgr' := snd r in
      bind (try_finally (body client)
                        (bind (sync__exit__ mgr') (fun _ => Ret tt)))
           (fun a => Ret (a, mgr'))).

(** What a method working for [self] may ask of the outside world: console
    output, creation of the host directories in [host], and the actions in
    [sent], addressed to the runtime handle [self] holds.  Excluded are the
    creation and the closing of a runtime and the agent controller. *)
Definition footprint (self : OpenHandsClient)
           (host : Path -> Prop) (sent : action -> Prop)
           (X : Type) (req : eff X) : Prop :=
  match req with
  | ConsolePrint _ => True
  | PathMkdir p => host p
  | RuntimeRunAction rt a => runtime self = Some rt /\ sent a
  | _ => False
  end.

(** What [start] and [stop] may ask: console output, the creation of a
    runtime from the client's configuration, the closing of the handle the
    client holds. *)
Definition lifecycle_footprint (self : OpenHandsClient)
           (creates closes : bool) (X : Type) (req : eff X) : Prop :=
  match req with
  | ConsolePrint _ => True
  | CreateRuntime cfg => creates = true /\ cfg = config self
  | RuntimeClose rt => closes = true /\ runtime self = Some rt
  | _ => False
  end.

End Facade.

End ClientUse.

(* ================================================================== *)
(** ** More of the DeepSeek CLI: [generate_code], and a host that records
       what the CLI does *)

Module CliMore.
Import Prog Cli.
Local Open Scope prog_scope.

Definition generate_code_prompt (task language : string) : string :=
  "You are an expert " ++ language ++ " programmer. Generate clean, production-ready code.

Task: " ++ task ++ "

Requirements:
- Write only the code
- Include error handling
- Add type hints and docstrings
- Follow best practices

Code:".

Definition generate_code (task language model : string) : prog eff string :=
  stream_response (generate_code_prompt task language) model.

(** What the CLI did, in order. *)
Inductive did : Type :=
| Opened (filepath : string)
| Printed (markup : string)
| Wrote (text : string)
| Asked (model prompt : string)
| AskedStream (model prompt : string).

(** A host given by what the console raises on a text (if anything), and by
    what [open]/[read] and the model server answer; [print] accepts
    everything.  The state is the record of what was done; a text the
    console raised on was not printed. *)
Definition recording_host
           (console : string -> option exn)
           (read : string -> exn + string)
           (reply : string -> string -> exn + string)
           (stream : string -> string -> exn + (list string * option exn))
           (X : Type) (req : eff X) (w : list did) : (exn + X) * list did :=
  match req in eff X return (exn + X) * list did with
  | ConsolePrint m =>
      match console m with
      | Some e => (inl e, w)
      | None => (inr tt, (w ++ [Printed m])%list)
      end
  | StdoutWrite t => (inr tt, (w ++ [Wrote t])%list)
  | OpenRead p => (read p, (w ++ [Opened p])%list)
  | OllamaChat model prompt => (reply model prompt, (w ++ [Asked model prompt])%list)
  | OllamaChatStream model prompt =>
      (stream model prompt, (w ++ [AskedStream model prompt])%list)
  end.

(** The header [stream_response] prints before the answer. *)
Definition stream_header (model : string) : string :=
  PyStr.nl ++ "[bold blue]🤖 DeepSeek (" ++ model ++ "):[/bold blue]" ++ PyStr.nl.

(** The text [print] wrote, in order.  (What the console printed, the
    [Printed] entries, is kept apart, although rich's console writes to
    standard output as well.) *)
Definition written (w : list did) : string :=
  String.concat ""
    (flat_map (fun d => match d with Wrote text => [text] | _ => [] end) w).

(** Hosts for the examples: one without files, one with a single file, one
    on which reading is refused; a model server that answers every request
    with the same chunks. *)
Definition no_files (filepath : string) : exn + string :=
  inl (FileNotFoundError ("[Errno 2] No such file or directory: '" ++ filepath ++ "'")).

Definition one_file (name code : string) (filepath : string) : exn + string :=
  if String.eqb filepath name then inr code else no_files filepath.

Definition unreadable (filepath : string) : exn + string :=
  inl (OtherError "PermissionError" ("[Errno 13] Permission denied: '" ++ filepath ++ "'")).

Definition fixed_reply (text : string) (model prompt : string) : exn + string :=
  inr text.

Definition fixed_stream (chunks : list string) (model prompt : string) :
  exn + (list string * option exn) :=
  inr (chunks, None).

(** A server whose stream breaks after the given chunks. *)
Definition broken_stream (chunks : list string) (e : exn) (model prompt : string) :
  exn + (list string * option exn) :=
  inr (chunks, Some e).

End CliMore.

(* ================================================================== *)
(** ** The sample environment with a scripted agent controller *)

Module SampleMore.
Import Prog Client Sample.
#[local] Existing Instance sample_ext.

(** As [sample_handler], except that the agent controller ends in a state
    with the given history. *)
Definition controller_handler (history : list (option string))
           (X : Type) (req : eff X) (w : world) : (exn + X) * world :=
  match req in eff X return (exn + X) * world with
  | ConsolePrint m => sample_handler unit (ConsolePrint m) w
  | PathMkdir p => sample_handler unit (PathMkdir p) w
  | CreateRuntime cfg => sample_handler nat (CreateRuntime cfg) w
  | RuntimeClose rt => sample_handler unit (RuntimeClose rt) w
  | RuntimeRunAction rt a => sample_handler observation (RuntimeRunAction rt a) w
  | RunController _ _ _ _ => (inr (Extract.Build_State history), w)
  end.








End SampleMore.


(* ================================================================== *)
(** * Properties *)

(** ** Facts about the string primitives *)

Module PyStrFacts.
Import PyStr.

Lemma str_length_app (a b : string) :
  String.length (a ++ b) = String.length a + String.length b.
Proof. induction a as [|c a IH]; simpl; [reflexivity | now rewrite IH]. Qed.

Lemma str_app_assoc (a b c : string) : (a ++ b) ++ c = a ++ (b ++ c).
Proof. induction a as [|x a IH]; simpl; [reflexivity | now rewrite IH]. Qed.

Lemma str_app_empty_r (a : string) : a ++ "" = a.
Proof. induction a as [|x a IH]; simpl; [reflexivity | now rewrite IH]. Qed.

Lemma drop_app (a b : string) : drop (String.length a) (a ++ b) = b.
Proof. induction a as [|c a IH]; simpl; [now destruct b | exact IH]. Qed.

Lemma drop_0 (s : string) : drop 0 s = s.
Proof. now destruct s. Qed.

Lemma take_app (a b : string) : take (String.length a) (a ++ b) = a.
Proof. induction a as [|c a IH]; simpl; [now destruct b | now rewrite IH]. Qed.

Lemma prefix_refl_app (a b : string) : String.prefix a (a ++ b) = true.
Proof.
  induction a as [|c a IH]; simpl; [now destruct b |].
  destruct (ascii_dec c c) as [_|n]; [exact IH | now elim n].
Qed.

Lemma prefix_empty (pat : string) :
  String.prefix pat "" = true -> pat = "".
Proof. destruct pat; simpl; [reflexivity | discriminate]. Qed.

(** An occurrence inside [b] is an occurrence in [a ++ b], shifted. *)
Lemma occurs_at_app_r (pat a b : string) (i : nat) :
  occurs_at pat b i -> occurs_at pat (a ++ b) (String.length a + i).
Proof.
  intros [Hi Hp]. split.
  - rewrite str_length_app. lia.
  - induction a as [|c a IH]; simpl; [exact Hp | exact IH].
Qed.

Lemma occurs_at_head (pat b : string) : occurs_at pat (pat ++ b) 0.
Proof. split; [lia | rewrite drop_0; apply prefix_refl_app]. Qed.

Lemma occurs_at_cons (pat : string) (c : ascii) (s : string) (j : nat) :
  occurs_at pat (String c s) (S j) <-> occurs_at pat s j.
Proof. unfold occurs_at; simpl; split; intros [H1 H2]; split; auto; lia. Qed.

Lemma occurs_at_0 (pat s : string) :
  occurs_at pat s 0 <-> String.prefix pat s = true.
Proof.
  unfold occurs_at; rewrite drop_0; split; [now intros [_ H] | split; [lia | auto]].
Qed.

Lemma occurs_at_nil (pat : string) (j : nat) :
  occurs_at pat "" j -> j = 0 /\ String.prefix pat "" = true.
Proof.
  intros [H1 H2]; simpl in H1. assert (j = 0) by lia; subst. now rewrite drop_0 in H2.
Qed.

(** [find] returns the least occurrence, or [-1] when there is none. *)
Lemma find_from_spec (pat s : string) : forall i : Z,
  (find_from pat s i = (-1)%Z /\ forall j, ~ occurs_at pat s j) \/
  (exists k, find_from pat s i = (i + Z.of_nat k)%Z /\ occurs_at pat s k /\
             forall j, occurs_at pat s j -> k <= j).
Proof.
  induction s as [|c s IH]; intro i.
  - unfold find_from. destruct (String.prefix pat "") eqn:Hp.
    + right. exists 0. repeat split; [lia | lia | now rewrite drop_0 | intros; lia].
    + left. split; [reflexivity|]. intros j Hj.
      apply occurs_at_nil in Hj. destruct Hj as [_ Hj]. congruence.
  - cbn [find_from]. destruct (String.prefix pat (String c s)) eqn:Hp.
    + right. exists 0. split; [lia|]. split; [now apply occurs_at_0 | intros; lia].
    + destruct (IH (i + 1)%Z) as [[He Hn] | [k [He [Ho Hl]]]].
      * left. split; [exact He|]. intros [|j] Hj.
        -- apply occurs_at_0 in Hj. congruence.
        -- apply occurs_at_cons in Hj. now apply (Hn j).
      * right. exists (S k). split; [rewrite He; lia|]. split.
        -- now apply occurs_at_cons.
        -- intros [|j] Hj.
           ++ apply occurs_at_0 in Hj. congruence.
           ++ apply occurs_at_cons in Hj. apply Hl in Hj. lia.
Qed.

(** [rfind] returns the greatest occurrence, or [-1] when there is none. *)
Lemma rfind_from_spec (pat s : string) : forall i : Z, (0 <= i)%Z ->
  (rfind_from pat s i = (-1)%Z /\ forall j, ~ occurs_at pat s j) \/
  (exists k, rfind_from pat s i = (i + Z.of_nat k)%Z /\ occurs_at pat s k /\
             forall j, occurs_at pat s j -> j <= k).
Proof.
  induction s as [|c s IH]; intros i Hi.
  - unfold rfind_from. destruct (String.prefix pat "") eqn:Hp.
    + right. exists 0. repeat split; [lia | lia | now rewrite drop_0 |].
      intros j Hj. apply occurs_at_nil in Hj. lia.
    + left. split; [reflexivity|]. intros j Hj.
      apply occurs_at_nil in Hj. destruct Hj as [_ Hj]. congruence.
  - cbn [rfind_from].
    destruct (IH (i + 1)%Z ltac:(lia)) as [[He Hn] | [k [He [Ho Hl]]]].
    + rewrite He. cbn [Z.eqb Pos.eqb].
      destruct (String.prefix pat (String c s)) eqn:Hp.
      * right. exists 0. split; [lia|]. split; [now apply occurs_at_0 |].
        intros [|j] Hj; [lia|]. apply occurs_at_cons in Hj. now elim (Hn j).
      * left. split; [reflexivity|]. intros [|j] Hj.
        -- apply occurs_at_0 in Hj. congruence.
        -- apply occurs_at_cons in Hj. now apply (Hn j).
    + rewrite He. destruct (Z.eqb_spec (i + 1 + Z.of_nat k) (-1)) as [E|_]; [lia|].
      right. exists (S k). split; [lia|]. split.
      * now apply occurs_at_cons.
      * intros [|j] Hj; [lia|]. apply occurs_at_cons in Hj. apply Hl in Hj. lia.
Qed.

Lemma find_spec (s pat : string) :
  (find s pat = (-1)%Z /\ forall j, ~ occurs_at pat s j) \/
  (exists k, find s pat = Z.of_nat k /\ occurs_at pat s k /\
             forall j, occurs_at pat s j -> k <= j).
Proof. exact (find_from_spec pat s 0). Qed.

Lemma rfind_spec (s pat : string) :
  (rfind s pat = (-1)%Z /\ forall j, ~ occurs_at pat s j) \/
  (exists k, rfind s pat = Z.of_nat k /\ occurs_at pat s k /\
             forall j, occurs_at pat s j -> j <= k).
Proof. exact (rfind_from_spec pat s 0 ltac:(lia)). Qed.

Lemma find_least (s pat : string) (k : nat) :
  occurs_at pat s k -> (forall j, occurs_at pat s j -> k <= j) ->
  find s pat = Z.of_nat k.
Proof.
  intros Ho Hl. destruct (find_spec s pat) as [[_ Hn] | [k' [He [Ho' Hl']]]].
  - now elim (Hn k).
  - rewrite He. f_equal. apply Hl in Ho'. apply Hl' in Ho. lia.
Qed.

Lemma rfind_greatest (s pat : string) (k : nat) :
  occurs_at pat s k -> (forall j, occurs_at pat s j -> j <= k) ->
  rfind s pat = Z.of_nat k.
Proof.
  intros Ho Hl. destruct (rfind_spec s pat) as [[_ Hn] | [k' [He [Ho' Hl']]]].
  - now elim (Hn k).
  - rewrite He. f_equal. apply Hl in Ho'. apply Hl' in Ho. lia.
Qed.

(** [pat in s] holds exactly when [pat] occurs somewhere in [s]. *)
Lemma contains_spec (s pat : string) :
  contains s pat = true <-> exists j, occurs_at pat s j.
Proof.
  induction s as [|c s IH].
  - simpl. rewrite orb_false_r. split.
    + intro H. exists 0. now apply occurs_at_0.
    + intros [j Hj]. now apply occurs_at_nil in Hj.
  - cbn [contains]. rewrite orb_true_iff, IH. split.
    + intros [H | [j Hj]].
      * exists 0. now apply occurs_at_0.
      * exists (S j). now apply occurs_at_cons.
    + intros [[|j] Hj].
      * left. now apply occurs_at_0 in Hj.
      * right. exists j. now apply occurs_at_cons in Hj.
Qed.

End PyStrFacts.

Module PyStrFacts2.
Import PyStr PyStrFacts.

Lemma occurrences_from_spec (pat s : string) : forall i k,
  In k (occurrences_from pat s i) <-> exists j, k = i + j /\ occurs_at pat s j.
Proof.
  induction s as [|c s IH]; intros i k; cbn [occurrences_from].
  - rewrite app_nil_r. destruct (String.prefix pat "") eqn:Hp; simpl; split.
    + intros [<- | []]. exists 0. split; [lia | now apply occurs_at_0].
    + intros [j [-> Hj]]. apply occurs_at_nil in Hj. left. lia.
    + intros [].
    + intros [j [_ Hj]]. apply occurs_at_nil in Hj. destruct Hj; congruence.
  - rewrite in_app_iff, IH. split.
    + intros [H | [j [-> Hj]]].
      * destruct (String.prefix pat (String c s)) eqn:Hp; [|destruct H].
        destruct H as [<- | []]. exists 0. split; [lia | now apply occurs_at_0].
      * exists (S j). split; [lia | now apply occurs_at_cons].
    + intros [[|j] [-> Hj]].
      * left. apply occurs_at_0 in Hj. rewrite Hj. left. lia.
      * right. exists j. split; [lia | now apply occurs_at_cons in Hj].
Qed.

(** [occurrences] lists exactly the indices of the occurrences. *)
Lemma occurrences_spec (pat s : string) (k : nat) :
  In k (occurrences pat s) <-> occurs_at pat s k.
Proof.
  unfold occurrences. rewrite occurrences_from_spec. split.
  - now intros [j [-> Hj]].
  - intro H. now exists k.
Qed.

Lemma split_nonempty (s : string) (sep : ascii) : split s sep <> [].
Proof.
  destruct s as [|c s]; simpl; [discriminate|].
  destruct (Ascii.eqb c sep); [discriminate|].
  destruct (split s sep); discriminate.
Qed.

(** Splitting distributes over a separator in the middle. *)
Lemma split_app_sep (a b : string) (sep : ascii) :
  split (a ++ String sep b) sep = (split a sep ++ split b sep)%list.
Proof.
  induction a as [|c a IH]; simpl.
  - now rewrite Ascii.eqb_refl.
  - destruct (Ascii.eqb c sep); [now rewrite IH|].
    rewrite IH. destruct (split a sep) as [|l ls] eqn:E; [|reflexivity].
    now elim (split_nonempty a sep).
Qed.

(** Joining the pieces of a split with the separator gives the string back. *)
Lemma join_split (s : string) (sep : ascii) :
  join (String sep "") (split s sep) = s.
Proof.
  unfold join. induction s as [|c s IH]; simpl; [reflexivity|].
  destruct (split s sep) as [|l ls] eqn:E; [now elim (split_nonempty s sep)|].
  destruct (Ascii.eqb_spec c sep) as [->|_].
  - cbn [String.concat]. cbn [String.concat] in IH. now rewrite IH.
  - cbn [String.concat] in *. destruct ls; simpl; now rewrite <- IH.
Qed.

(** [s[|a| : |a|+|b|]] of [a ++ b ++ c] is [b]. *)
Lemma slice_middle (a b c : string) :
  slice (a ++ b ++ c) (Z.of_nat (String.length a))
        (Z.of_nat (String.length a + String.length b)) = b.
Proof.
  unfold slice, clamp, len. rewrite !str_length_app.
  destruct (Z.ltb_spec (Z.of_nat (String.length a)) 0) as [H|_]; [lia|].
  destruct (Z.ltb_spec (Z.of_nat (String.length a + String.length b)) 0) as [H|_];
    [lia|].
  rewrite !Z.min_l by lia.
  replace (Z.to_nat (Z.of_nat (String.length a + String.length b)
                     - Z.of_nat (String.length a))) with (String.length b) by lia.
  rewrite Nat2Z.id, drop_app. apply take_app.
Qed.

End PyStrFacts2.

Module PyListFacts.
Import PyList.

Lemma getitem_0 {A : Type} (x : A) (l : list A) : getitem (x :: l) 0 = inr x.
Proof.
  unfold getitem. cbn [Z.ltb Z.compare].
  destruct (Z.ltb_spec 0 0) as [H|_]; [lia|].
  destruct (Z.leb_spec (Z.of_nat (List.length (x :: l))) 0) as [H|_];
    [simpl in H; lia | reflexivity].
Qed.

Lemma getitem_last {A : Type} (l : list A) (x : A) :
  getitem (l ++ [x]) (-1) = inr x.
Proof.
  unfold getitem. cbn [Z.ltb Z.compare]. rewrite length_app. cbn [List.length].
  set (n := List.length l).
  destruct (Z.ltb_spec (-1 + Z.of_nat (n + 1)) 0) as [H|_]; [lia|].
  destruct (Z.leb_spec (Z.of_nat (n + 1)) (-1 + Z.of_nat (n + 1))) as [H|_]; [lia|].
  cbn [orb]. replace (Z.to_nat (-1 + Z.of_nat (n + 1))) with n by lia.
  subst n. rewrite nth_error_app2 by lia. now rewrite Nat.sub_diag.
Qed.

Lemma getitem_nil {A : Type} (i : Z) :
  exists msg, getitem (@nil A) i = inl (IndexError msg).
Proof.
  unfold getitem. cbn [List.length Z.of_nat].
  destruct ((_ <? 0)%Z || _)%bool; eexists; try reflexivity.
  destruct (Z.to_nat _); reflexivity.
Qed.

Lemma upto_last_app {A : Type} (l : list A) (x : A) : upto_last (l ++ [x]) = l.
Proof. apply removelast_last. Qed.

End PyListFacts.

(* ================================================================== *)
(** ** Code extraction *)

Module ExtractFacts.
Import PyStr PyStrFacts PyStrFacts2 PyListFacts Extract.

Section Events.
Variable event : Type.
Variable has_content : event -> bool.
Variable content_str : event -> string.

Local Abbreviation scan := (scan event has_content content_str).
Local Abbreviation fences := (fences event content_str).
Local Abbreviation _extract_code_from_state :=
  (Extract._extract_code_from_state event has_content content_str).

(** An event whose content holds the delimiter at most once is passed
    over, as is an event without content. *)
Lemma scan_pass (ev : event) (rest : list event) :
  (has_content ev = true -> List.length (fences ev) <= 1) ->
  scan (ev :: rest) = scan rest.
Proof.
  intro H. cbn [Extract.scan].
  destruct (has_content ev); [|reflexivity]. specialize (H eq_refl).
  destruct (contains (content_str ev) fence); [|reflexivity]. cbn [andb].
  unfold Extract.fences in H.
  destruct (find_spec (content_str ev) fence) as [[Ef Hf] | [k1 [Ef [O1 _]]]];
    destruct (rfind_spec (content_str ev) fence) as [[Er Hr] | [k2 [Er [O2 _]]]];
    rewrite Ef, Er.
  - reflexivity.
  - now elim (Hf k2).
  - now elim (Hr k1).
  - apply occurrences_spec in O1, O2.
    destruct (occurrences fence (content_str ev)) as [|a [|b l]];
      simpl in H, O1, O2; try lia; try tauto.
    destruct O1 as [<- | []], O2 as [<- | []].
    now rewrite Z.eqb_refl.
Qed.

Lemma scan_pass_all (l rest : list event) :
  Forall (fun ev => has_content ev = true -> List.length (fences ev) <= 1) l ->
  scan (l ++ rest) = scan rest.
Proof.
  induction 1 as [|ev l Hev _ IH]; [reflexivity|].
  rewrite <- app_comm_cons, scan_pass by exact Hev. exact IH.
Qed.


(** Lines 266-273 on a content whose first and last delimiters are the
    fences of one [python] block. *)
Lemma strip_fences_block (pre X post : string) :
  strip_fences (pre ++ python_block X ++ post)
               (Z.of_nat (String.length pre))
               (Z.of_nat (String.length pre + 11 + String.length X)) = inr X.
Proof.
  unfold strip_fences.
  replace (Z.of_nat (String.length pre + 11 + String.length X) + 3)%Z
    with (Z.of_nat (String.length pre + String.length (python_block X))).
  2:{ unfold python_block. rewrite !str_length_app. simpl String.length. lia. }
  rewrite slice_middle.
  assert (E : split (python_block X) newline
              = "```python" :: (split X newline ++ [fence])%list).
  { unfold python_block, nl.
    change (fence ++ "python" ++ String newline "" ++ X ++ String newline "" ++ fence)
      with ("```python" ++ String newline (X ++ String newline fence)).
    now rewrite !split_app_sep. }
  rewrite E, getitem_0.
  change (startswith "```python" fence) with true. cbn iota.
  unfold PyList.from1. cbn [skipn].
  rewrite getitem_last, String.eqb_refl, upto_last_app.
  f_equal. apply join_split.
Qed.

(** The event that holds the block is where the scan stops. *)
Lemma scan_block (ev : event) (rest : list event) (pre X post : string) :
  has_content ev = true ->
  content_str ev = pre ++ python_block X ++ post ->
  fences ev = [String.length pre; String.length pre + 11 + String.length X] ->
  scan (ev :: rest) = inr X.
Proof.
  intros Hc Hs Hf. cbn [Extract.scan]. rewrite Hc. cbn [andb].
  unfold Extract.fences in Hf.
  assert (Hin : forall j, occurs_at fence (content_str ev) j <->
                          j = String.length pre \/
                          j = String.length pre + 11 + String.length X).
  { intro j. rewrite <- occurrences_spec, Hf. simpl. intuition lia. }
  assert (Hc' : contains (content_str ev) fence = true).
  { apply contains_spec. exists (String.length pre). apply Hin. now left. }
  rewrite Hc'.
  rewrite (find_least (content_str ev) fence (String.length pre)).
  2:{ apply Hin. now left. }
  2:{ intros j Hj. apply Hin in Hj. lia. }
  rewrite (rfind_greatest (content_str ev) fence
             (String.length pre + 11 + String.length X)).
  2:{ apply Hin. now right. }
  2:{ intros j Hj. apply Hin in Hj. lia. }
  destruct (Z.eqb_spec (Z.of_nat (String.length pre))
              (Z.of_nat (String.length pre + 11 + String.length X))) as [E|_];
    [lia|].
  cbn [negb]. rewrite Hs. apply strip_fences_block.
Qed.

(** C1.  If one event's textual content is [pre ++ ```python\nX\n``` ++ post]
    and the fence delimiter occurs in it exactly twice, as the opening and
    the closing fence of that block, and no later event of the history
    holds two delimiters, then the extraction returns exactly [X].  If no
    event of the history holds the delimiter, the extraction returns the
    empty string. *)
Theorem extract_single_block :
  (forall (earlier later : list event) (ev : event) (pre X post : string),
      has_content ev = true ->
      content_str ev = pre ++ python_block X ++ post ->
      fences ev = [String.length pre; String.length pre + 11 + String.length X] ->
      Forall (fun e => has_content e = true -> List.length (fences e) <= 1) later ->
      _extract_code_from_state (Build_State (earlier ++ ev :: later)) = inr X)
  /\
  (forall history : list event,
      Forall (fun e => has_content e = true -> fences e = []) history ->
      _extract_code_from_state (Build_State history) = inr "").
Proof.
  split.
  - intros earlier later ev pre X post Hc Hs Hf Hl.
    unfold Extract._extract_code_from_state. cbn [history].
    rewrite rev_app_distr. cbn [rev]. rewrite <- app_assoc. cbn [app].
    rewrite scan_pass_all.
    + now apply scan_block with (pre := pre) (post := post).
    + apply Forall_rev. exact Hl.
  - intros h Hh. unfold Extract._extract_code_from_state. cbn [history].
    rewrite <- (app_nil_r (rev h)). rewrite scan_pass_all; [reflexivity|].
    apply Forall_rev. revert Hh. apply Forall_impl.
    intros e He Hce. rewrite (He Hce). simpl. lia.
Qed.


End Events.

End ExtractFacts.

(** Witness for [extract_single_block]: a three-event history whose middle
    event holds the block, and a history without any delimiter. *)
Lemma extract_single_block_witness :
  Extract._extract_code_from_state (option string)
    Sample.sample_has_content Sample.sample_content_str
    (Extract.Build_State
       [Some "write a sorter";
        Some ("Here you go: " ++ Extract.python_block "x = 1" ++ " Done.");
        None])
  = inr "x = 1"
  /\
  Extract._extract_code_from_state (option string)
    Sample.sample_has_content Sample.sample_content_str
    (Extract.Build_State [Some "no code here"; None])
  = inr "".
Proof.
  split.
  - apply (proj1 (ExtractFacts.extract_single_block (option string)
                    Sample.sample_has_content Sample.sample_content_str)
             [Some "write a sorter"] [None]
             (Some ("Here you go: " ++ Extract.python_block "x = 1" ++ " Done."))
             "Here you go: " "x = 1" " Done.").
    + reflexivity.
    + reflexivity.
    + reflexivity.
    + repeat constructor.
  - apply (proj2 (ExtractFacts.extract_single_block (option string)
                    Sample.sample_has_content Sample.sample_content_str)).
    repeat constructor.
Defined.


(** Outside the statements above: when the first and the last delimiter of
    an event stand on one line, line 270 empties [lines] and [lines[-1]] of
    line 271 raises [IndexError]. *)
Example extract_one_line_fences_raise :
  Extract._extract_code_from_state (option string)
    Sample.sample_has_content Sample.sample_content_str
    (Extract.Build_State [Some "see ```x = 1``` above"])
  = inl (IndexError "list index out of range").
Proof. reflexivity. Qed.

(* ================================================================== *)
(** ** Configuration resolver *)

Module ConfigFacts.
Import PyStr PyStrFacts Dict Config.

Lemma contains_app_r (a b pat : string) :
  contains b pat = true -> contains (a ++ b) pat = true.
Proof.
  rewrite !contains_spec. intros [j Hj].
  exists (String.length a + j). now apply occurs_at_app_r.
Qed.

Lemma contains_app_l (a b : string) : contains (a ++ b) a = true.
Proof. apply contains_spec. exists 0. apply occurs_at_head. Qed.

(** The keys of the mapping do not depend on the environment. *)
Lemma LLM_CONFIG_keys (environ : string -> option string) :
  keys (LLM_CONFIG environ)
  = ["deepseek_local"; "deepseek_api"; "openai"; "anthropic"].
Proof. reflexivity. Qed.

(** A non-empty argument is the provider that is looked up. *)
Lemma py_or_nonempty (p d : string) : p <> "" -> py_or (Some p) d = p.
Proof.
  intro H. unfold py_or. destruct (String.eqb_spec p ""); [contradiction | reflexivity].
Qed.

(** C2, amended.  For every non-empty provider string that is not a key of
    the mapping, [get_llm_config] raises [ValueError]; its message is
    [Unknown provider: <provider>. Available: [<the four keys>]], so it names
    the provider and every key of the mapping. *)
Theorem get_llm_config_unknown_provider
        (environ : string -> option string) (p : string) :
  p <> "" ->
  mem p (LLM_CONFIG environ) = false ->
  let msg := "Unknown provider: " ++ p
             ++ ". Available: ['deepseek_local', 'deepseek_api', 'openai', 'anthropic']" in
  get_llm_config environ (Some p) = inl (ValueError msg)
  /\ contains msg p = true
  /\ Forall (fun k => contains msg (repr_str k) = true) (keys (LLM_CONFIG environ)).
Proof.
  intros Hne Hmem msg. split; [|split].
  - unfold get_llm_config. rewrite py_or_nonempty by exact Hne.
    rewrite Hmem. reflexivity.
  - unfold msg. apply contains_app_r. apply contains_app_l.
  - rewrite LLM_CONFIG_keys. unfold msg.
    repeat constructor; apply contains_app_r; apply contains_app_r; reflexivity.
Qed.

(** C2 as stated fails at the empty string: it is not a key of the mapping,
    and with no [LLM_PROVIDER] in the environment [get_llm_config("")] returns
    the [deepseek_local] profile instead of raising. *)
Lemma get_llm_config_empty_string_no_error :
  mem "" (LLM_CONFIG empty_environ) = false /\
  get_llm_config empty_environ (Some "")
  = inr [ ("model", "ollama/deepseek-coder-v2:16b");
          ("api_key", "ollama");
          ("base_url", "http://localhost:11434") ].
Proof. split; reflexivity. Qed.

(** C3.  The mapping has the four keys [deepseek_local], [deepseek_api],
    [openai], [anthropic], and for each of them [get_llm_config] returns,
    without raising, the profile stored under it, whose [model] and
    [base_url] entries are non-empty strings. *)
Theorem get_llm_config_known_provider
        (environ : string -> option string) (p : string) :
  In p (keys (LLM_CONFIG environ)) ->
  keys (LLM_CONFIG environ) = ["deepseek_local"; "deepseek_api"; "openai"; "anthropic"]
  /\ exists profile m u,
       get_llm_config environ (Some p) = inr profile
       /\ lookup p (LLM_CONFIG environ) = Some profile
       /\ lookup "model" profile = Some m /\ m <> ""
       /\ lookup "base_url" profile = Some u /\ u <> "".
Proof.
  intro Hin. split; [reflexivity|].
  rewrite LLM_CONFIG_keys in Hin. simpl in Hin.
  destruct Hin as [<- | [<- | [<- | [<- | []]]]];
    eexists; eexists; eexists;
    (split; [reflexivity|]); (split; [reflexivity|]);
    (split; [reflexivity|]); (split; [discriminate|]);
    (split; [reflexivity | discriminate]).
Qed.

(** C9, amended.  A falsy argument ([None] or the empty string) is treated
    as an omitted one: the provider looked up is the default taken from the
    environment, the value of [LLM_PROVIDER], or [deepseek_local] when it is
    not set.  The result is that default's profile when the default is a key
    of the mapping; otherwise the unknown-provider error is raised, and it
    names the default. *)
Theorem get_llm_config_falsy_uses_default
        (environ : string -> option string) (p : option string) :
  truthy p = false ->
  let default :=
    match environ "LLM_PROVIDER" with Some v => v | None => "deepseek_local" end in
  get_llm_config environ p = get_llm_config environ None
  /\ get_llm_config environ p = get_llm_config environ (Some default)
  /\ (forall profile,
         lookup default (LLM_CONFIG environ) = Some profile ->
         get_llm_config environ p = inr profile)
  /\ (mem default (LLM_CONFIG environ) = false ->
      get_llm_config environ p
      = inl (ValueError
               ("Unknown provider: " ++ default
                ++ ". Available: ['deepseek_local', 'deepseek_api', 'openai', 'anthropic']"))).
Proof.
  intros Hf default.
  assert (Ed : DEFAULT_PROVIDER environ = default) by reflexivity.
  assert (E : py_or p (DEFAULT_PROVIDER environ) = default).
  { rewrite Ed. destruct p as [s|]; [|reflexivity]. simpl in Hf. unfold py_or.
    destruct (String.eqb s ""); [reflexivity | discriminate]. }
  assert (E' : py_or (Some default) (DEFAULT_PROVIDER environ) = default).
  { rewrite Ed. unfold py_or. now destruct (String.eqb default ""). }
  split; [|split; [|split]].
  - unfold get_llm_config. now rewrite E.
  - unfold get_llm_config. now rewrite E, E'.
  - intros profile Hl. unfold get_llm_config, mem, getitem. rewrite E, Hl. reflexivity.
  - intro Hm. unfold get_llm_config. rewrite E, Hm. reflexivity.
Qed.

(** C9 as stated fails when the environment sets [LLM_PROVIDER] to the empty
    string: the default is then the empty string itself, and
    [get_llm_config("")] raises the unknown-provider error. *)
Lemma get_llm_config_empty_default_raises :
  get_llm_config (environ_with "LLM_PROVIDER" "") (Some "")
  = inl (ValueError
           "Unknown provider: . Available: ['deepseek_local', 'deepseek_api', 'openai', 'anthropic']").
Proof. reflexivity. Qed.

End ConfigFacts.

(** Witness for [get_llm_config_falsy_uses_default]: with
    [LLM_PROVIDER=openai] the empty string resolves to the [openai] profile. *)
Lemma get_llm_config_falsy_uses_default_witness :
  Config.get_llm_config (Config.environ_with "LLM_PROVIDER" "openai") (Some "")
  = Config.get_llm_config (Config.environ_with "LLM_PROVIDER" "openai") None
  /\ Config.get_llm_config (Config.environ_with "LLM_PROVIDER" "openai") (Some "")
     = inr [ ("model", "gpt-4o");
             ("api_key", "");
             ("base_url", "https://api.openai.com/v1") ].
Proof.
  pose proof (ConfigFacts.get_llm_config_falsy_uses_default
                (Config.environ_with "LLM_PROVIDER" "openai") (Some "") eq_refl)
    as [H1 [_ [H3 _]]].
  split; [exact H1 | apply H3; reflexivity].
Defined.

Lemma get_llm_config_unknown_provider_witness :
  "mistral" <> "" /\
  Config.get_llm_config Config.empty_environ (Some "mistral")
  = inl (ValueError "Unknown provider: mistral. Available: ['deepseek_local', 'deepseek_api', 'openai', 'anthropic']").
Proof.
  split; [discriminate|].
  apply (ConfigFacts.get_llm_config_unknown_provider Config.empty_environ "mistral");
    [discriminate | reflexivity].
Defined.

Lemma get_llm_config_known_provider_witness :
  exists profile,
    Config.get_llm_config (Config.environ_with "OPENAI_API_KEY" "sk-test") (Some "openai")
    = inr profile
    /\ Dict.lookup "model" profile = Some "gpt-4o"
    /\ Dict.lookup "base_url" profile = Some "https://api.openai.com/v1".
Proof.
  destruct (ConfigFacts.get_llm_config_known_provider
              (Config.environ_with "OPENAI_API_KEY" "sk-test") "openai")
    as [_ [profile [m [u [H1 [H2 _]]]]]].
  - simpl. tauto.
  - exists profile. split; [exact H1|].
    vm_compute in H2. injection H2 as <-. split; reflexivity.
Defined.

(* ================================================================== *)
(** ** Running programs *)

Module ProgFacts.
Import Prog.

Section Handler.
Context {E : Type -> Type} {W : Type}.
Variable handler : forall X : Type, E X -> W -> (exn + X) * W.

Lemma run_bind {A B : Type} (p : prog E A) (f : A -> prog E B) : forall w,
  run handler (bind p f) w
  = match run handler p w with
    | (inr a, w') => run handler (f a) w'
    | (inl e, w') => (inl e, w')
    end.
Proof.
  induction p as [a | e | X req k IH]; intro w; simpl; try reflexivity.
  destruct (handler X req w) as [r w']. apply IH.
Qed.

Lemma run_call {X : Type} (req : E X) (w : W) :
  run handler (call req) w = handler X req w.
Proof.
  unfold call. simpl. destruct (handler X req w) as [[e | x] w']; reflexivity.
Qed.
End Handler.

End ProgFacts.

(* ================================================================== *)
(** ** Client facade *)

Module ClientFacts.
Import Prog ProgFacts Client Contract.

Section Handler.
Context {ext : External} {W : Type}.
Variable handler : forall X : Type, eff X -> W -> (exn + X) * W.

Lemma run_mbind {A B : Type} (m : method A) (f : A -> method B) self w :
  run handler (mbind m f self) w
  = match run handler (m self) w with
    | (inr (a, self'), w') => run handler (f a self') w'
    | (inl e, w') => (inl e, w')
    end.
Proof.
  unfold mbind. rewrite run_bind.
  destruct (run handler (m self) w) as [[e | [a self']] w']; reflexivity.
Qed.

Lemma run_perform {X : Type} (req : eff X) self w :
  run handler (perform req self) w
  = match handler X req w with
    | (inr x, w') => (inr (x, self), w')
    | (inl e, w') => (inl e, w')
    end.
Proof.
  unfold perform. rewrite run_bind, run_call.
  destruct (handler X req w) as [[e | x] w']; reflexivity.
Qed.

Lemma run_log (message : renderable) self w :
  run handler (_log message self) w
  = if verbose self
    then match handler unit (ConsolePrint message) w with
         | (inr _, w') => (inr (tt, self), w')
         | (inl e, w') => (inl e, w')
         end
    else (inr (tt, self), w).
Proof.
  unfold _log. rewrite run_mbind. simpl.
  destruct (verbose self); [|reflexivity].
  rewrite run_perform. destruct (handler unit (ConsolePrint message) w) as [[e | []] w']; reflexivity.
Qed.

Lemma run_runtime_run_action (a : action) self w :
  run handler (runtime_run_action a self) w
  = match runtime self with
    | Some rt =>
        match handler observation (RuntimeRunAction rt a) w with
        | (inr o, w') => (inr (o, self), w')
        | (inl e, w') => (inl e, w')
        end
    | None =>
        (inl (AttributeError "'NoneType' object has no attribute 'run_action'"), w)
    end.
Proof.
  unfold runtime_run_action. rewrite run_mbind. simpl.
  destruct (runtime self); [apply run_perform | reflexivity].
Qed.


(** A client as [__init__] returns it has no runtime handle. *)
Lemma init_runtime_none (provider : string) (workspace_dir : option string)
      (verbose : bool) (w w' : W) (self : OpenHandsClient) :
  run handler (__init__ provider workspace_dir verbose) w = (inr self, w') ->
  runtime self = None /\ Client.provider self = provider.
Proof.
  unfold __init__. destruct OPENHANDS_AVAILABLE; [|discriminate]. cbn [negb].
  rewrite run_bind, run_call.
  destruct (handler unit _ w) as [[e | []] wa]; [discriminate|].
  rewrite run_bind.
  destruct (Config.get_llm_config environ (Some provider)) as [e | cfg];
    [discriminate|]. cbn [lift run].
  rewrite run_bind. destruct (Dict.getitem cfg "model") as [e | m]; [discriminate|].
  cbn [lift run]. rewrite run_bind.
  destruct (Dict.getitem cfg "api_key") as [e | k]; [discriminate|].
  cbn [lift run]. rewrite run_bind.
  destruct (Dict.getitem cfg "base_url") as [e | u]; [discriminate|].
  cbn [lift run]. rewrite run_bind, run_mbind, run_log. cbn [Client.verbose].
  destruct verbose.
  - destruct (handler unit _ wa) as [[e | []] wb]; [discriminate|].
    rewrite run_log. cbn [Client.verbose].
    destruct (handler unit _ wb) as [[e | []] wc]; [discriminate|].
    cbn [run snd]. intro H. inversion H. split; reflexivity.
  - rewrite run_log. cbn [Client.verbose run snd]. intro H. inversion H.
    split; reflexivity.
Qed.

(** C5.  On a client that was never started ([runtime] is still [None])
    [stop] is the program that returns at once: it makes no request to the
    outside world (no [close] of a runtime, no console output), does not
    raise, and hands back the client as it was; run against any environment
    it leaves the environment's state as it found it. *)
Theorem stop_without_start (self : OpenHandsClient) :
  runtime self = None ->
  stop self = Ret (tt, self)
  /\ forall w, run handler (stop self) w = (inr (tt, self), w).
Proof.
  intro H.
  assert (E : stop self = Ret (tt, self)).
  { unfold stop, mbind, get_self. simpl. rewrite H. reflexivity. }
  split; [exact E | intro w; now rewrite E].
Qed.

(** C6.  On a synchronous wrapper whose client was never started,
    [run_command] never returns a string: in every environment the call ends
    in a raised exception.  When the console accepted the log line, the
    exception is the [AttributeError] of looking up [run_action] on [None],
    and nothing was sent to a runtime. *)
Theorem sync_run_command_before_start (s : OpenHandsSync) (command : string) (w : W) :
  runtime (_client s) = None ->
  (exists e w', run handler (sync_run_command command s) w = (inl e, w'))
  /\ (forall w',
        run handler (_log (Text ("💻 Running: " ++ command)) (_client s)) w
        = (inr (tt, _client s), w') ->
        run handler (sync_run_command command s) w
        = (inl (AttributeError "'NoneType' object has no attribute 'run_action'"), w')).
Proof.
  intro H.
  assert (E : run handler (sync_run_command command s) w
              = match run handler (_log (Text ("💻 Running: " ++ command)) (_client s)) w with
                | (inr _, w') =>
                    (inl (AttributeError "'NoneType' object has no attribute 'run_action'"), w')
                | (inl e, w') => (inl e, w')
                end).
  { unfold sync_run_command, _run, run_command. rewrite run_bind, run_mbind.
    destruct (run handler (_log _ (_client s)) w) as [[e | [[] self']] w'] eqn:El;
      [reflexivity|].
    assert (self' = _client s) as ->.
    { rewrite run_log in El. destruct (verbose (_client s)).
      - destruct (handler unit _ w) as [[e | u] w0]; congruence.
      - congruence. }
    rewrite run_mbind, run_runtime_run_action, H. reflexivity. }
  split.
  - rewrite E. destruct (run handler (_log _ (_client s)) w) as [[e | x] w']; eauto.
  - intros w' Hl. rewrite E, Hl. reflexivity.
Qed.

(** C7.  Whatever observation the runtime returns for the browse action:
    if it is of the browser-output variant, [browse_url] returns the
    dictionary with exactly the keys [url], [content], [screenshot] holding
    the observation's fields; otherwise it returns the dictionary with the
    single key [content] holding the string form of the observation. *)
Theorem browse_url_result (self : OpenHandsClient) (rt : Runtime) (url : string)
        (w w1 w2 : W) (obs : observation) :
  runtime self = Some rt ->
  run handler (_log (Text ("🌐 Browsing: " ++ url)) self) w = (inr (tt, self), w1) ->
  handler observation (RuntimeRunAction rt (BrowseURLAction url)) w1 = (inr obs, w2) ->
  exists d,
    run handler (browse_url url self) w = (inr (d, self), w2)
    /\ match obs with
       | BrowserOutputObservation u c s =>
           d = [ ("url", u); ("content", c); ("screenshot", s) ]
           /\ Dict.keys d = ["url"; "content"; "screenshot"]
       | _ =>
           d = [ ("content", observation_str obs) ]
           /\ Dict.keys d = ["content"]
       end.
Proof.
  intros Hrt Hlog Hobs.
  unfold browse_url. rewrite run_mbind, Hlog, run_mbind, run_runtime_run_action, Hrt, Hobs.
  destruct obs; simpl; eexists; (split; [reflexivity|]); split; reflexivity.
Qed.


(** *** Only [start] assigns to [self] *)

Lemma keeps_self_mret {A : Type} (a : A) : keeps_self handler (mret a).
Proof. intros self self' a' w w' H. cbn in H. congruence. Qed.

Lemma keeps_self_mraise {A : Type} (e : exn) : keeps_self handler (@mraise _ A e).
Proof. intros self self' a' w w' H. cbn in H. discriminate. Qed.

Lemma keeps_self_mlift {A : Type} (r : exn + A) : keeps_self handler (mlift r).
Proof. destruct r; [apply keeps_self_mraise | apply keeps_self_mret]. Qed.

Lemma keeps_self_perform {X : Type} (req : eff X) : keeps_self handler (perform req).
Proof.
  intros self self' a w w' H. rewrite run_perform in H.
  destruct (handler X req w) as [[e | x] w0]; congruence.
Qed.

Lemma keeps_self_mbind {A B : Type} (m : method A) (f : A -> method B) :
  keeps_self handler m -> (forall a, keeps_self handler (f a)) ->
  keeps_self handler (mbind m f).
Proof.
  intros Hm Hf self self' b w w' H. rewrite run_mbind in H.
  destruct (run handler (m self) w) as [[e | [a self0]] w0] eqn:E; [discriminate|].
  apply Hm in E. subst self0. now apply Hf in H.
Qed.

(** Reading [self] and continuing with a method that keeps it. *)
Lemma keeps_self_get {B : Type} (f : OpenHandsClient -> method B) :
  (forall s, keeps_self handler (f s)) -> keeps_self handler (mbind get_self f).
Proof.
  intro Hf. apply keeps_self_mbind; [|exact Hf].
  intros self self' a w w' H. cbn in H. congruence.
Qed.

Lemma keeps_self_log (message : renderable) : keeps_self handler (_log message).
Proof.
  apply keeps_self_get. intro s.
  destruct (verbose s); [apply keeps_self_perform | apply keeps_self_mret].
Qed.

Lemma keeps_self_runtime_run_action (a : action) :
  keeps_self handler (runtime_run_action a).
Proof.
  apply keeps_self_get. intro s.
  destruct (runtime s); [apply keeps_self_perform | apply keeps_self_mraise].
Qed.

Create HintDb keeps.

#[local] Hint Resolve keeps_self_mret keeps_self_mraise keeps_self_mlift
  keeps_self_perform keeps_self_log keeps_self_runtime_run_action : keeps.

Ltac keeps :=
  repeat first
    [ apply keeps_self_get; intro
    | apply keeps_self_mbind; [|intro]
    | solve [auto with keeps]
    | match goal with
      | |- keeps_self _ (match ?x with _ => _ end) => destruct x
      | |- keeps_self _ (if ?b then _ else _) => destruct b
      end ].

(** [stop], [run_command], [read_file], [write_file], [browse_url], [ask] and
    [code_task] never assign to [self]: a client that was not started stays
    without runtime handle through any of them. *)
Lemma methods_keep_self :
  keeps_self handler stop
  /\ (forall command, keeps_self handler (run_command command))
  /\ (forall filepath, keeps_self handler (read_file filepath))
  /\ (forall filepath content, keeps_self handler (write_file filepath content))
  /\ (forall url, keeps_self handler (browse_url url))
  /\ (forall task n, keeps_self handler (ask task n))
  /\ (forall task language filename,
         keeps_self handler (code_task task language filename)).
Proof.
  repeat split; intros;
    unfold stop, run_command, read_file, write_file, browse_url, ask, code_task;
    keeps.
Qed.


End Handler.

End ClientFacts.

(* ================================================================== *)
(** ** DeepSeek CLI *)

Module CliFacts.
Import Prog ProgFacts Cli.

Section Handler.
Context {W : Type}.
Variable handler : forall X : Type, Cli.eff X -> W -> (exn + X) * W.

End Handler.

End CliFacts.

(* ================================================================== *)
(** ** The statements above on the sample environment *)

Module SampleFacts.
Import Prog Client Contract Sample SampleMore ClientFacts CliFacts.







(** Witness for [stop_without_start]: the client as [__init__] leaves it. *)
Lemma stop_without_start_witness :
  stop fresh_client = Ret (tt, fresh_client)
  /\ run sample_handler (stop fresh_client) empty_world
     = (inr (tt, fresh_client), empty_world).
Proof.
  destruct (stop_without_start sample_handler fresh_client eq_refl) as [H1 H2].
  split; [exact H1 | apply H2].
Defined.

(** Witness for [sync_run_command_before_start]: [run_command(ls)] on a
    wrapper that was not started. *)
Lemma sync_run_command_before_start_witness :
  run sample_handler (sync_run_command "ls" {| _client := fresh_client |}) empty_world
  = (inl (AttributeError "'NoneType' object has no attribute 'run_action'"),
     {| console := [Text "💻 Running: ls"]; files := [] |}).
Proof.
  apply (proj2 (sync_run_command_before_start sample_handler
                  {| _client := fresh_client |} "ls" empty_world eq_refl)).
  reflexivity.
Defined.

(** Witness for [browse_url_result]: one URL the sample runtime rejects and
    one it renders. *)
Lemma browse_url_result_witness :
  (exists d,
      run sample_handler (browse_url "ftp://host" started_client) empty_world
      = (inr (d, started_client),
         {| console := [Text "🌐 Browsing: ftp://host"]; files := [] |})
      /\ d = [ ("content", "ErrorObservation: invalid url") ])
  /\
  (exists d,
      run sample_handler (browse_url "http://host" started_client) empty_world
      = (inr (d, started_client),
         {| console := [Text "🌐 Browsing: http://host"]; files := [] |})
      /\ d = [ ("url", "http://host"); ("content", "<html></html>");
               ("screenshot", "") ]).
Proof.
  split.
  - destruct (browse_url_result sample_handler started_client 0 "ftp://host"
                empty_world
                {| console := [Text "🌐 Browsing: ftp://host"]; files := [] |}
                {| console := [Text "🌐 Browsing: ftp://host"]; files := [] |}
                (OtherObservation "ErrorObservation" "invalid url")
                eq_refl eq_refl eq_refl) as [d [H1 [H2 _]]].
    exists d. split; [exact H1 | exact H2].
  - destruct (browse_url_result sample_handler started_client 0 "http://host"
                empty_world
                {| console := [Text "🌐 Browsing: http://host"]; files := [] |}
                {| console := [Text "🌐 Browsing: http://host"]; files := [] |}
                (BrowserOutputObservation "http://host" "<html></html>" "")
                eq_refl eq_refl eq_refl) as [d [H1 [H2 _]]].
    exists d. split; [exact H1 | exact H2].
Defined.



End SampleFacts.

(* ================================================================== *)
(** * Further properties *)

(** ** Code extraction: the general shape of the result *)

Module ExtractMore.
Import PyStr PyStrFacts PyStrFacts2 PyListFacts Extract ExtractFacts.

(** [find] walks to the first occurrence. *)
Lemma find_from_hd (pat s : string) : forall i : nat,
  find_from pat s (Z.of_nat i)
  = match occurrences_from pat s i with
    | [] => (-1)%Z
    | k :: _ => Z.of_nat k
    end.
Proof.
  induction s as [|c s IH]; intro i; cbn [find_from occurrences_from].
  - destruct (String.prefix pat ""); reflexivity.
  - destruct (String.prefix pat (String c s)); [reflexivity|].
    cbn [app]. rewrite <- IH. f_equal. lia.
Qed.

(** The default of [last] does not matter on a non-empty list. *)
Lemma last_cons_default {A : Type} (l : list A) : forall k d : A,
  last (k :: l) d = last l k.
Proof.
  induction l as [|x l IH]; intros k d; [reflexivity|].
  change (last (k :: x :: l) d) with (last (x :: l) d). now rewrite !IH.
Qed.

(** The last element is an element. *)
Lemma last_In {A : Type} (l : list A) : forall a : A, In (last l a) (a :: l).
Proof.
  induction l as [|x l IH]; intro a; [now left|].
  rewrite last_cons_default. right. apply IH.
Qed.

(** [rfind] ends at the last occurrence. *)
Lemma rfind_from_last (pat s : string) : forall i : nat,
  rfind_from pat s (Z.of_nat i)
  = match occurrences_from pat s i with
    | [] => (-1)%Z
    | k :: l => Z.of_nat (last l k)
    end.
Proof.
  induction s as [|c s IH]; intro i; cbn [rfind_from occurrences_from].
  - destruct (String.prefix pat ""); reflexivity.
  - replace (Z.of_nat i + 1)%Z with (Z.of_nat (S i)) by lia. rewrite IH.
    destruct (occurrences_from pat s (S i)) as [|k l].
    + cbn [Z.eqb Pos.eqb]. destruct (String.prefix pat (String c s)); reflexivity.
    + destruct (Z.eqb_spec (Z.of_nat (last l k)) (-1)) as [E|_]; [lia|].
      destruct (String.prefix pat (String c s)); [|reflexivity].
      cbn [app]. now rewrite last_cons_default.
Qed.

(** [find] is the first and [rfind] the last of the occurrences. *)
Lemma find_rfind_occurrences (s pat : string) :
  match occurrences pat s with
  | [] => find s pat = (-1)%Z /\ rfind s pat = (-1)%Z
  | a :: l => find s pat = Z.of_nat a /\ rfind s pat = Z.of_nat (last l a)
              /\ a <= last l a /\ last l a + String.length pat <= String.length s
  end.
Proof.
  unfold find, rfind, occurrences.
  pose proof (find_from_hd pat s 0) as Hf. pose proof (rfind_from_last pat s 0) as Hr.
  cbn [Z.of_nat] in Hf, Hr. rewrite Hf, Hr.
  destruct (occurrences_from pat s 0) as [|a l] eqn:E; [split; reflexivity|].
  split; [reflexivity|]. split; [reflexivity|].
  assert (Hin : In (last l a) (occurrences pat s)).
  { unfold occurrences. rewrite E. apply last_In. }
  assert (Ha : In a (occurrences pat s)).
  { unfold occurrences. rewrite E. now left. }
  apply occurrences_spec in Hin, Ha.
  split.
  - destruct (find_spec s pat) as [[_ Hn] | [k [Ek [_ Hl]]]]; [now elim (Hn a)|].
    unfold find in Ek. rewrite Hf in Ek. apply Nat2Z.inj in Ek. subst k.
    now apply Hl.
  - destruct Hin as [Hle Hp]. clear - Hle Hp.
    revert Hle Hp. generalize (last l a). intros n. revert s.
    induction n as [|n IH]; intros s Hle Hp.
    + rewrite drop_0 in Hp. clear Hle. revert s Hp.
      induction pat as [|x p IHp]; intros s Hp; [simpl; lia|].
      destruct s as [|y s]; [discriminate|]. simpl in Hp.
      destruct (ascii_dec x y); [|discriminate]. apply IHp in Hp. simpl. lia.
    + destruct s as [|y s]; [simpl in Hle; lia|]. simpl in Hle, Hp.
      specialize (IH s ltac:(lia) Hp). simpl. lia.
Qed.


(** A string without separator is one piece. *)
Lemma split_no_sep (s : string) (sep : ascii) :
  contains s (String sep "") = false -> split s sep = [s].
Proof.
  induction s as [|c s IH]; [reflexivity|]. cbn [contains String.prefix].
  intro H. apply orb_false_iff in H. destruct H as [H1 H2].
  cbn [split]. destruct (Ascii.eqb_spec c sep) as [->|_].
  - destruct (ascii_dec sep sep) as [_|n]; [|now elim n]. now destruct s.
  - now rewrite (IH H2).
Qed.

(** Appending text without separator extends the last piece. *)
Lemma split_app_no_sep (s t : string) (sep : ascii) :
  contains t (String sep "") = false ->
  split (s ++ t) sep
  = (removelast (split s sep) ++ [(last (split s sep) "" ++ t)%string])%list.
Proof.
  intro Ht. induction s as [|x s IH]; cbn [append split].
  - now apply split_no_sep.
  - rewrite IH. destruct (split s sep) as [|l ls] eqn:E;
      [now elim (split_nonempty s sep)|].
    destruct (Ascii.eqb x sep).
    + reflexivity.
    + destruct ls as [|l2 ls]; reflexivity.
Qed.

(** A prefix survives truncation to at least its length. *)
Lemma prefix_take (p s : string) : forall n,
  String.prefix p s = true -> String.length p <= n ->
  String.prefix p (take n s) = true.
Proof.
  revert s. induction p as [|x p IH]; intros s n Hp Hn.
  - now destruct (take n s).
  - destruct s as [|y s]; [discriminate|]. destruct n as [|n]; [simpl in Hn; lia|].
    simpl in *. destruct (ascii_dec x y); [|discriminate]. apply IH; [exact Hp | lia].
Qed.

(** [l[-1]] of a non-empty list is its last element. *)
Lemma getitem_neg1 {A : Type} (l : list A) (d : A) :
  l <> [] -> PyList.getitem l (-1) = inr (last l d).
Proof.
  intro H. rewrite (app_removelast_last d H) at 1. apply getitem_last.
Qed.

Section Events.
Variable event : Type.
Variable has_content : event -> bool.
Variable content_str : event -> string.

Local Abbreviation scan := (scan event has_content content_str).
Local Abbreviation fences := (fences event content_str).
Local Abbreviation _extract_code_from_state :=
  (Extract._extract_code_from_state event has_content content_str).

(** One step of the loop, in terms of the delimiters of the event. *)
Lemma scan_step (ev : event) (rest : list event) (a : nat) (l : list nat) :
  has_content ev = true ->
  fences ev = a :: l ->
  scan (ev :: rest)
  = if Nat.eqb a (last l a) then scan rest
    else strip_fences (content_str ev) (Z.of_nat a) (Z.of_nat (last l a)).
Proof.
  intros Hc Hf. cbn [Extract.scan]. rewrite Hc. cbn [andb].
  unfold Extract.fences in Hf.
  pose proof (find_rfind_occurrences (content_str ev) fence) as H.
  rewrite Hf in H. destruct H as [Ef [Er _]].
  assert (Hin : contains (content_str ev) fence = true).
  { apply contains_spec. exists a. apply occurrences_spec. rewrite Hf. now left. }
  rewrite Hin, Ef, Er.
  destruct (Nat.eqb_spec a (last l a)) as [E|E].
  - rewrite <- E, Z.eqb_refl. reflexivity.
  - destruct (Z.eqb_spec (Z.of_nat a) (Z.of_nat (last l a))) as [E'|_]; [lia|].
    reflexivity.
Qed.

(** Lines 266-273 once the slice and its lines are known. *)
Lemma strip_fences_lines (content code l0 : string) (ls : list string)
      (start end_ : Z) :
  slice content start (end_ + 3) = code ->
  split code newline = l0 :: ls ->
  startswith l0 fence = true ->
  ls <> [] ->
  strip_fences content start end_
  = inr (join nl (if String.eqb (last ls "") fence then removelast ls else ls)).
Proof.
  intros Hs Hl H0 Hne. unfold strip_fences. rewrite Hs, Hl, getitem_0, H0.
  unfold PyList.from1. cbn [skipn].
  rewrite (getitem_neg1 ls "") by exact Hne. reflexivity.
Qed.

(** The same when the slice is a single line. *)
Lemma strip_fences_one_line (content code : string) (start end_ : Z) :
  slice content start (end_ + 3) = code ->
  split code newline = [code] ->
  startswith code fence = true ->
  strip_fences content start end_ = inl (IndexError "list index out of range").
Proof.
  intros Hs Hl H0. unfold strip_fences. rewrite Hs, Hl, getitem_0, H0. reflexivity.
Qed.

(** The first and the last delimiter of an event, as list head and last. *)
Lemma fences_first_last (ev : event) (a b : nat) :
  hd_error (fences ev) = Some a -> last (fences ev) 0 = b ->
  exists l, fences ev = a :: l /\ last l a = b.
Proof.
  intros Hh Hl. destruct (fences ev) as [|x l]; [discriminate|].
  injection Hh as ->. exists l. split; [reflexivity|].
  now rewrite last_cons_default in Hl.
Qed.

(** The scan reaches an event when every later event is passed over. *)
Lemma extract_at (earlier later : list event) (ev : event) :
  Forall (fun e => has_content e = true -> List.length (fences e) <= 1) later ->
  _extract_code_from_state (Build_State (earlier ++ ev :: later))
  = scan (ev :: rev earlier).
Proof.
  intro Hl. unfold Extract._extract_code_from_state. cbn [history].
  rewrite rev_app_distr. cbn [rev]. rewrite <- app_assoc. cbn [app].
  apply scan_pass_all. now apply Forall_rev.
Qed.

(** X1.  The result spans from the first fence line to the last one: when
    the first delimiter of an event opens a line [```info] and its last
    delimiter stands alone at the start of a line, the extraction returns
    everything between these two lines, whatever the info string and whatever
    lies in between; with several blocks in the event, the inner fence lines
    and the text between the blocks are part of the result. *)
Theorem extract_first_to_last_fence
        (earlier later : list event) (ev : event) (pre info body post : string) :
  has_content ev = true ->
  content_str ev = pre ++ (fence ++ info ++ nl ++ body ++ nl ++ fence) ++ post ->
  contains info nl = false ->
  hd_error (fences ev) = Some (String.length pre) ->
  last (fences ev) 0
  = String.length pre + 3 + String.length info + 1 + String.length body + 1 ->
  Forall (fun e => has_content e = true -> List.length (fences e) <= 1) later ->
  _extract_code_from_state (Build_State (earlier ++ ev :: later)) = inr body.
Proof.
  intros Hc Hs Hi Hh Hl Hlater. rewrite extract_at by exact Hlater.
  destruct (fences_first_last ev _ _ Hh Hl) as [l [Hf Hb]].
  rewrite (scan_step ev _ _ l Hc Hf), Hb.
  destruct (Nat.eqb_spec (String.length pre)
              (String.length pre + 3 + String.length info + 1 + String.length body + 1))
    as [E|_]; [lia|].
  rewrite Hs.
  rewrite (strip_fences_lines _ (fence ++ info ++ nl ++ body ++ nl ++ fence)
             (fence ++ info) (split body newline ++ [fence])%list).
  - rewrite last_last, String.eqb_refl, removelast_last. f_equal. apply join_split.
  - replace (Z.of_nat (String.length pre + 3 + String.length info + 1
                       + String.length body + 1) + 3)%Z
      with (Z.of_nat (String.length pre
                      + String.length (fence ++ info ++ nl ++ body ++ nl ++ fence))).
    + apply slice_middle.
    + rewrite !str_length_app. simpl String.length. lia.
  - unfold nl.
    change (fence ++ info ++ String newline "" ++ body ++ String newline "" ++ fence)
      with (fence ++ info ++ String newline (body ++ String newline fence)).
    rewrite <- str_app_assoc, !split_app_sep.
    rewrite (split_no_sep (fence ++ info)); [reflexivity|].
    change (String newline "") with nl. simpl. exact Hi.
  - apply prefix_refl_app.
  - now destruct (split body newline).
Qed.

(** X2.  When the first and the last delimiter of the event that stops the
    scan are distinct and no newline lies between them (closing delimiter
    included), line 270 drops the only line and [lines[-1]] raises
    [IndexError]. *)
Theorem extract_one_line_raises
        (earlier later : list event) (ev : event) (a b : nat) :
  has_content ev = true ->
  hd_error (fences ev) = Some a ->
  last (fences ev) 0 = b ->
  a <> b ->
  contains (slice (content_str ev) (Z.of_nat a) (Z.of_nat b + 3)) nl = false ->
  Forall (fun e => has_content e = true -> List.length (fences e) <= 1) later ->
  _extract_code_from_state (Build_State (earlier ++ ev :: later))
  = inl (IndexError "list index out of range").
Proof.
  intros Hc Hh Hl Hab Hn Hlater. rewrite extract_at by exact Hlater.
  destruct (fences_first_last ev _ _ Hh Hl) as [l [Hf Hb]].
  rewrite (scan_step ev _ _ l Hc Hf), Hb.
  destruct (Nat.eqb_spec a b) as [E|_]; [contradiction|].
  apply (strip_fences_one_line _ _ _ _ eq_refl (split_no_sep _ _ Hn)).
  pose proof (find_rfind_occurrences (content_str ev) fence) as H.
  unfold Extract.fences in Hf. rewrite Hf, Hb in H.
  destruct H as [_ [_ [Hle Hlen]]]. simpl String.length in Hlen.
  assert (Ha : occurs_at fence (content_str ev) a).
  { apply occurrences_spec. rewrite Hf. now left. }
  destruct Ha as [_ Ha].
  unfold startswith, slice, clamp, len.
  destruct (Z.ltb_spec (Z.of_nat a) 0) as [?|_]; [lia|].
  destruct (Z.ltb_spec (Z.of_nat b + 3) 0) as [?|_]; [lia|].
  rewrite !Z.min_l by lia. rewrite Nat2Z.id.
  apply prefix_take; [exact Ha | simpl; lia].
Qed.

(** X3.  When the last delimiter does not start its line (the code's last
    line runs into the closing fence), the last line is kept as it is: the
    result ends with that line and the fence marker. *)
Theorem extract_inline_closing_fence
        (earlier later : list event) (ev : event)
        (pre info body post : string) (c : ascii) :
  has_content ev = true ->
  content_str ev
  = pre ++ (fence ++ info ++ nl ++ body ++ String c "" ++ fence) ++ post ->
  contains info nl = false ->
  c <> newline ->
  hd_error (fences ev) = Some (String.length pre) ->
  last (fences ev) 0
  = String.length pre + 3 + String.length info + 1 + String.length body + 1 ->
  Forall (fun e => has_content e = true -> List.length (fences e) <= 1) later ->
  _extract_code_from_state (Build_State (earlier ++ ev :: later))
  = inr (body ++ String c "" ++ fence).
Proof.
  intros Hc Hs Hi Hcn Hh Hl Hlater. rewrite extract_at by exact Hlater.
  destruct (fences_first_last ev _ _ Hh Hl) as [l [Hf Hb]].
  rewrite (scan_step ev _ _ l Hc Hf), Hb.
  destruct (Nat.eqb_spec (String.length pre)
              (String.length pre + 3 + String.length info + 1 + String.length body + 1))
    as [E|_]; [lia|].
  rewrite Hs.
  assert (Ht : contains (String c fence) (String newline "") = false).
  { cbn [contains String.prefix].
    destruct (ascii_dec newline c) as [E|_]; [now elim Hcn|]. reflexivity. }
  set (tail := (body ++ String c "" ++ fence)).
  assert (Hsp : split tail newline
                = (removelast (split body newline)
                   ++ [(last (split body newline) "" ++ String c fence)%string])%list).
  { apply split_app_no_sep. exact Ht. }
  rewrite (strip_fences_lines _ (fence ++ info ++ nl ++ tail)
             (fence ++ info) (split tail newline)).
  - assert (Hne : String.eqb (last (split tail newline) "") fence = false).
    { rewrite Hsp, last_last. apply String.eqb_neq. intro H.
      apply (f_equal String.length) in H. rewrite str_length_app in H.
      simpl in H. lia. }
    rewrite Hne. f_equal. apply join_split.
  - replace (Z.of_nat (String.length pre + 3 + String.length info + 1
                       + String.length body + 1) + 3)%Z
      with (Z.of_nat (String.length pre
                      + String.length (fence ++ info ++ nl ++ tail))).
    + apply slice_middle.
    + unfold tail. rewrite !str_length_app. simpl String.length. lia.
  - unfold nl.
    change (fence ++ info ++ String newline "" ++ tail)
      with (fence ++ info ++ String newline tail).
    rewrite <- str_app_assoc, split_app_sep.
    rewrite (split_no_sep (fence ++ info)); [reflexivity|].
    change (String newline "") with nl. simpl. exact Hi.
  - apply prefix_refl_app.
  - apply split_nonempty.
Qed.

(** X4.  A block whose closing fence follows the opening line directly
    gives the empty string, the result of a history without any block. *)
Theorem extract_empty_block
        (earlier later : list event) (ev : event) (pre info post : string) :
  has_content ev = true ->
  content_str ev = pre ++ (fence ++ info ++ nl ++ fence) ++ post ->
  contains info nl = false ->
  hd_error (fences ev) = Some (String.length pre) ->
  last (fences ev) 0 = String.length pre + 3 + String.length info + 1 ->
  Forall (fun e => has_content e = true -> List.length (fences e) <= 1) later ->
  _extract_code_from_state (Build_State (earlier ++ ev :: later)) = inr "".
Proof.
  intros Hc Hs Hi Hh Hl Hlater. rewrite extract_at by exact Hlater.
  destruct (fences_first_last ev _ _ Hh Hl) as [l [Hf Hb]].
  rewrite (scan_step ev _ _ l Hc Hf), Hb.
  destruct (Nat.eqb_spec (String.length pre)
              (String.length pre + 3 + String.length info + 1)) as [E|_]; [lia|].
  rewrite Hs.
  rewrite (strip_fences_lines _ (fence ++ info ++ nl ++ fence) (fence ++ info) [fence]).
  - reflexivity.
  - replace (Z.of_nat (String.length pre + 3 + String.length info + 1) + 3)%Z
      with (Z.of_nat (String.length pre
                      + String.length (fence ++ info ++ nl ++ fence))).
    + apply slice_middle.
    + rewrite !str_length_app. simpl String.length. lia.
  - unfold nl.
    change (fence ++ info ++ String newline "" ++ fence)
      with (fence ++ info ++ String newline fence).
    rewrite <- str_app_assoc, split_app_sep.
    rewrite (split_no_sep (fence ++ info)); [reflexivity|].
    change (String newline "") with nl. simpl. exact Hi.
  - apply prefix_refl_app.
  - discriminate.
Qed.

End Events.
End ExtractMore.

(* ================================================================== *)
(** ** Configuration resolver: every outcome *)

Module ConfigMore.
Import Dict Config.

(** X5.  [get_llm_config] has two outcomes: the [ValueError] naming the
    looked-up provider (the argument, or the default when it is falsy) when it
    is not a key, and otherwise the profile stored under it, which has exactly
    the keys [model], [api_key], [base_url].  The lookup of line 52 never
    fails. *)
Theorem get_llm_config_outcomes
        (environ : string -> option string) (p : option string) :
  let provider := py_or p (DEFAULT_PROVIDER environ) in
  (mem provider (LLM_CONFIG environ) = false
   /\ get_llm_config environ p
      = inl (ValueError (unknown_provider_message environ provider)))
  \/
  (exists profile,
      get_llm_config environ p = inr profile
      /\ lookup provider (LLM_CONFIG environ) = Some profile
      /\ keys profile = ["model"; "api_key"; "base_url"]).
Proof.
  intro provider. unfold get_llm_config. fold provider.
  unfold mem, getitem.
  destruct (lookup provider (LLM_CONFIG environ)) as [profile|] eqn:E.
  - right. exists profile. split; [reflexivity|]. split; [reflexivity|].
    unfold LLM_CONFIG in E. cbn [lookup] in E.
    repeat match type of E with
           | (if ?b then _ else _) = _ => destruct b
           end; try discriminate; injection E as <-; reflexivity.
  - left. split; reflexivity.
Qed.

(** X6.  When the environment's default provider is not a key of the
    mapping, every call without a provider ([None] or the empty string)
    raises the [ValueError] that names the default. *)
Theorem get_llm_config_bad_default
        (environ : string -> option string) (p : option string) :
  truthy p = false ->
  mem (DEFAULT_PROVIDER environ) (LLM_CONFIG environ) = false ->
  get_llm_config environ p
  = inl (ValueError
           ("Unknown provider: " ++ DEFAULT_PROVIDER environ
            ++ ". Available: ['deepseek_local', 'deepseek_api', 'openai', 'anthropic']")).
Proof.
  intros Hf Hm. unfold get_llm_config.
  assert (E : py_or p (DEFAULT_PROVIDER environ) = DEFAULT_PROVIDER environ).
  { destruct p as [s|]; [|reflexivity]. simpl in Hf. unfold py_or.
    destruct (String.eqb s ""); [reflexivity | discriminate]. }
  rewrite E, Hm. reflexivity.
Qed.

(** X7.  For the three cloud providers the [api_key] of the profile is the
    value of the provider's environment variable, and the empty string, not
    an error, when the variable is not set. *)
Theorem cloud_api_key_from_environment
        (environ : string -> option string) (p var : string) :
  In (p, var) [ ("deepseek_api", "DEEPSEEK_API_KEY");
                ("openai", "OPENAI_API_KEY");
                ("anthropic", "ANTHROPIC_API_KEY") ] ->
  exists profile,
    get_llm_config environ (Some p) = inr profile
    /\ lookup "api_key" profile
       = Some (match environ var with Some key => key | None => "" end).
Proof.
  intro H. simpl in H.
  destruct H as [H | [H | [H | []]]]; injection H as <- <-;
    eexists; split; reflexivity.
Qed.

End ConfigMore.

(** Witness for [get_llm_config_bad_default]: [LLM_PROVIDER] names no profile. *)
Lemma get_llm_config_bad_default_witness :
  Config.get_llm_config (Config.environ_with "LLM_PROVIDER" "gpt5") None
  = inl (ValueError "Unknown provider: gpt5. Available: ['deepseek_local', 'deepseek_api', 'openai', 'anthropic']").
Proof.
  apply (ConfigMore.get_llm_config_bad_default
           (Config.environ_with "LLM_PROVIDER" "gpt5") None); reflexivity.
Defined.

(** Witness for [cloud_api_key_from_environment]: no key set. *)
Lemma cloud_api_key_from_environment_witness :
  exists profile,
    Config.get_llm_config Config.empty_environ (Some "anthropic") = inr profile
    /\ Dict.lookup "api_key" profile = Some "".
Proof.
  apply (ConfigMore.cloud_api_key_from_environment Config.empty_environ
           "anthropic" "ANTHROPIC_API_KEY").
  simpl. tauto.
Defined.

(* ================================================================== *)
(** ** Running [finally] *)

Module ProgMoreFacts.
Import Prog ProgMore ProgFacts.

Section Handler.
Context {E : Type -> Type} {W : Type}.
Variable handler : forall X : Type, E X -> W -> (exn + X) * W.


End Handler.

End ProgMoreFacts.

(* ================================================================== *)
(** ** Client facade: construction, life cycle, results, footprint *)

Module ClientMore.
Import Prog ProgMore ProgFacts ProgMoreFacts Dict Client ClientUse Contract ClientFacts.

Section Handler.
Context {ext : External} {W : Type}.
Variable handler : forall X : Type, eff X -> W -> (exn + X) * W.

(** Walks through a program tree, splitting on every answer. *)
Ltac crunch :=
  repeat first
    [ progress cbn [requests_all bind fst snd footprint lifecycle_footprint]
    | exact I
    | split
    | intros [?|?]
    | match goal with
      | |- context [if ?b then _ else _] => destruct b eqn:?
      | |- context [match ?x with _ => _ end] => destruct x eqn:?
      end
    | reflexivity
    | assumption ].

(** X14.  What the four action methods can ask of the outside world, however
    the world answers: console output and one action, of the method's own
    kind and on the resolved path, sent to the handle the client holds;
    [write_file] besides creates the parent directory of the resolved path on
    the host.  None of them creates or closes a runtime or starts the agent
    controller, and [read_file] never sends a write. *)
Theorem action_methods_footprint (self : OpenHandsClient) :
  (forall command,
      requests_all (footprint self (fun _ => False)
                              (fun a => a = CmdRunAction command))
                   (run_command command self))
  /\ (forall filepath,
         requests_all
           (footprint self (fun _ => False)
              (fun a => a = FileReadAction
                              (path_str (joinpath (workspace_dir self) filepath))))
           (read_file filepath self))
  /\ (forall filepath content,
         requests_all
           (footprint self
              (fun p => p = parent (joinpath (workspace_dir self) filepath))
              (fun a => a = FileWriteAction
                              (path_str (joinpath (workspace_dir self) filepath))
                              content))
           (write_file filepath content self))
  /\ (forall url,
         requests_all (footprint self (fun _ => False)
                                 (fun a => a = BrowseURLAction url))
                      (browse_url url self)).
Proof.
  repeat split; intros;
    unfold run_command, read_file, write_file, browse_url, runtime_run_action,
      _log, mbind, get_self, perform, call, mret, mraise;
    crunch.
Qed.



(** Reading [self]. *)
Lemma run_get_self (self : OpenHandsClient) (w : W) :
  run handler (get_self self) w = (inr (self, self), w).
Proof. reflexivity. Qed.

(** X10.  [__init__] creates the workspace directory before it looks the
    provider up: when the lookup fails, the error of [get_llm_config] is
    raised with the directory already created. *)
Theorem init_unknown_provider
        (provider : string) (workspace_dir : option string) (verbose : bool)
        (e : exn) (w w1 : W) :
  OPENHANDS_AVAILABLE = true ->
  Config.get_llm_config environ (Some provider) = inl e ->
  handler unit
    (PathMkdir (resolve (mkPath (Config.py_or workspace_dir
                                   (Config.WORKSPACE_DIR environ))))) w
  = (inr tt, w1) ->
  run handler (__init__ provider workspace_dir verbose) w = (inl e, w1).
Proof.
  intros Ha He Hm. unfold __init__. rewrite Ha. cbn [negb].
  rewrite run_bind, run_call, Hm, run_bind, He. reflexivity.
Qed.

(** X9.  The client [__init__] returns: provider and verbosity as given
    (the provider as given even when the empty string made [get_llm_config]
    use the default), no runtime handle, the resolved workspace directory
    (the argument, or [WORKSPACE_DIR] when it is falsy) also as
    [workspace_base], the fixed sandbox image, and the three entries of the
    provider's profile as the LLM configuration. *)
Theorem init_success
        (provider : string) (workspace_dir : option string) (verbose : bool)
        (w w' : W) (self : OpenHandsClient) :
  run handler (__init__ provider workspace_dir verbose) w = (inr self, w') ->
  Client.provider self = provider
  /\ Client.verbose self = verbose
  /\ runtime self = None
  /\ Client.workspace_dir self
     = resolve (mkPath (Config.py_or workspace_dir (Config.WORKSPACE_DIR environ)))
  /\ workspace_base (config self) = path_str (Client.workspace_dir self)
  /\ base_container_image (sandbox (config self))
     = "docker.all-hands.dev/all-hands-ai/runtime:main"
  /\ exists profile,
       Config.get_llm_config environ (Some provider) = inr profile
       /\ lookup "model" profile = Some (model (llm (config self)))
       /\ lookup "api_key" profile = Some (api_key (llm (config self)))
       /\ lookup "base_url" profile = Some (base_url (llm (config self))).
Proof.
  unfold __init__. destruct OPENHANDS_AVAILABLE; [|discriminate]. cbn [negb].
  rewrite run_bind, run_call.
  destruct (handler unit _ w) as [[e | []] wa]; [discriminate|].
  rewrite run_bind.
  destruct (Config.get_llm_config environ (Some provider)) as [e | cfg];
    [discriminate|]. cbn [lift run].
  rewrite run_bind. unfold getitem.
  destruct (lookup "model" cfg) as [m|] eqn:Em; [|discriminate].
  cbn [lift run]. rewrite run_bind.
  destruct (lookup "api_key" cfg) as [k|] eqn:Ek; [|discriminate].
  cbn [lift run]. rewrite run_bind.
  destruct (lookup "base_url" cfg) as [u|] eqn:Eu; [|discriminate].
  cbn [lift run]. rewrite run_bind, run_mbind, run_log. cbn [Client.verbose].
  destruct verbose.
  - destruct (handler unit _ wa) as [[e | []] wb]; [discriminate|].
    rewrite run_log. cbn [Client.verbose].
    destruct (handler unit _ wb) as [[e | []] wc]; [discriminate|].
    cbn [run snd]. intro H. inversion H. cbn.
    repeat split. exists cfg. repeat split; assumption.
  - rewrite run_log. cbn [Client.verbose run snd]. intro H. inversion H. cbn.
    repeat split. exists cfg. repeat split; assumption.
Qed.

(** What [start] returns and leaves behind. *)
Lemma start_result_aux (self self' c : OpenHandsClient) (w w' : W) :
  run handler (start self) w = (inr (c, self'), w') ->
  c = self'
  /\ exists rt, self' = set_runtime self (Some rt).
Proof.
  unfold start. rewrite run_mbind.
  destruct (run handler (_log _ self) w) as [[e | [[] s1]] w1] eqn:El; [discriminate|].
  assert (s1 = self) as ->.
  { exact (keeps_self_log handler _ _ _ _ _ _ El). }
  rewrite run_mbind, run_get_self. cbv beta iota.
  rewrite run_mbind, run_perform.
  destruct (handler Runtime _ w1) as [[e | rt] w2]; [discriminate|].
  rewrite run_mbind. cbn [put_self run]. rewrite run_mbind.
  destruct (run handler (_log _ (set_runtime self (Some rt))) w2)
    as [[e | [[] s2]] w3] eqn:El2; [discriminate|].
  assert (s2 = set_runtime self (Some rt)) as ->.
  { exact (keeps_self_log handler _ _ _ _ _ _ El2). }
  rewrite run_get_self. intro H. inversion H. split; [reflexivity|].
  now exists rt.
Qed.

(** X11.  When [start] returns, it returns the client itself, which now holds
    a runtime handle; provider, workspace, verbosity and configuration are
    as before. *)
Theorem start_sets_runtime (self self' c : OpenHandsClient) (w w' : W) :
  run handler (start self) w = (inr (c, self'), w') ->
  c = self'
  /\ (exists rt, runtime self' = Some rt)
  /\ provider self' = provider self
  /\ workspace_dir self' = workspace_dir self
  /\ verbose self' = verbose self
  /\ config self' = config self.
Proof.
  intro H. destruct (start_result_aux _ _ _ _ _ H) as [-> [rt ->]].
  split; [reflexivity|]. split; [now exists rt|]. repeat split.
Qed.

(** X13.  [stop] does not forget the handle: after a [stop] the client still
    holds it, and a second [stop] closes the same handle again. *)
Theorem stop_twice_closes_twice
        (self : OpenHandsClient) (rt : Runtime) (w w1 w2 w3 w4 : W) :
  runtime self = Some rt ->
  handler unit (RuntimeClose rt) w = (inr tt, w1) ->
  run handler (_log (Text "🛑 Runtime stopped") self) w1 = (inr (tt, self), w2) ->
  handler unit (RuntimeClose rt) w2 = (inr tt, w3) ->
  run handler (_log (Text "🛑 Runtime stopped") self) w3 = (inr (tt, self), w4) ->
  run handler (stop self) w = (inr (tt, self), w2)
  /\ run handler (mbind stop (fun _ => stop) self) w = (inr (tt, self), w4).
Proof.
  intros Hrt Hc1 Hl1 Hc2 Hl2.
  assert (E : forall wa wb wc,
             handler unit (RuntimeClose rt) wa = (inr tt, wb) ->
             run handler (_log (Text "🛑 Runtime stopped") self) wb
             = (inr (tt, self), wc) ->
             run handler (stop self) wa = (inr (tt, self), wc)).
  { intros wa wb wc Hc Hl. unfold stop. rewrite run_mbind, run_get_self.
    cbv beta iota. rewrite Hrt, run_mbind, run_perform, Hc. exact Hl. }
  split; [exact (E _ _ _ Hc1 Hl1)|].
  rewrite run_mbind, (E _ _ _ Hc1 Hl1). exact (E _ _ _ Hc2 Hl2).
Qed.

(** X15.  Before [start], [read_file], [write_file] and [browse_url] end in
    an exception in every environment; [write_file] raises the
    [AttributeError] only after it has created the parent directory on the
    host. *)
Theorem file_actions_before_start
        (self : OpenHandsClient) (filepath content url : string) (w : W) :
  runtime self = None ->
  (exists e w', run handler (read_file filepath self) w = (inl e, w'))
  /\ (exists e w', run handler (write_file filepath content self) w = (inl e, w'))
  /\ (exists e w', run handler (browse_url url self) w = (inl e, w'))
  /\ (forall w1 w2,
         handler unit
           (PathMkdir (parent (joinpath (workspace_dir self) filepath))) w
         = (inr tt, w1) ->
         run handler
             (_log (Text ("📝 Writing: "
                          ++ path_str (joinpath (workspace_dir self) filepath)))
                   self) w1
         = (inr (tt, self), w2) ->
         run handler (write_file filepath content self) w
         = (inl (AttributeError "'NoneType' object has no attribute 'run_action'"),
            w2)).
Proof.
  intro Hrt.
  assert (Hlog : forall m wa, exists r wb,
             run handler (_log m self) wa = (r, wb)
             /\ (r = inr (tt, self) \/ exists e, r = inl e)).
  { intros m wa. destruct (run handler (_log m self) wa) as [[e | [[] s1]] wb] eqn:El.
    - exists (inl e), wb. split; [reflexivity | right; now exists e].
    - pose proof (keeps_self_log handler _ _ _ _ _ _ El) as ->.
      exists (inr (tt, self)), wb. split; [reflexivity | now left]. }
  repeat split.
  - unfold read_file. rewrite run_mbind, run_get_self. cbv beta iota.
    rewrite run_mbind.
    destruct (Hlog (Text ("📖 Reading: "
                 ++ path_str (joinpath (workspace_dir self) filepath))) w)
      as [r [wb [El [-> | [e ->]]]]]; rewrite El.
    + rewrite run_mbind, run_runtime_run_action, Hrt. eauto.
    + eauto.
  - unfold write_file. rewrite run_mbind, run_get_self. cbv beta iota.
    rewrite run_mbind, run_perform.
    destruct (handler unit _ w) as [[e | []] wa]; [eauto|].
    rewrite run_mbind.
    destruct (Hlog (Text ("📝 Writing: "
                 ++ path_str (joinpath (workspace_dir self) filepath))) wa)
      as [r [wb [El [-> | [e ->]]]]]; rewrite El.
    + rewrite run_mbind, run_runtime_run_action, Hrt. eauto.
    + eauto.
  - unfold browse_url. rewrite run_mbind.
    destruct (Hlog (Text ("🌐 Browsing: " ++ url)) w)
      as [r [wb [El [-> | [e ->]]]]]; rewrite El.
    + rewrite run_mbind, run_runtime_run_action, Hrt. eauto.
    + eauto.
  - intros w1 w2 Hm Hl. unfold write_file. rewrite run_mbind, run_get_self.
    cbv beta iota. rewrite run_mbind, run_perform, Hm, run_mbind, Hl.
    rewrite run_mbind, run_runtime_run_action, Hrt. reflexivity.
Qed.




(** X18.  [write_file] on a started client returns [True] exactly when the
    runtime answers with the file-write variant, and logs the success line
    only then; any other observation gives [False] without an exception. *)
Theorem write_file_result
        (self : OpenHandsClient) (rt : Runtime) (filepath content : string)
        (obs : observation) (w w1 w2 w3 : W) :
  runtime self = Some rt ->
  handler unit (PathMkdir (parent (joinpath (workspace_dir self) filepath))) w
  = (inr tt, w1) ->
  run handler
      (_log (Text ("📝 Writing: "
                   ++ path_str (joinpath (workspace_dir self) filepath))) self) w1
  = (inr (tt, self), w2) ->
  handler observation
    (RuntimeRunAction rt
       (FileWriteAction (path_str (joinpath (workspace_dir self) filepath))
                        content)) w2
  = (inr obs, w3) ->
  match obs with
  | FileWriteObservation _ =>
      forall w4,
        run handler (_log (Text "✅ File written successfully") self) w3
        = (inr (tt, self), w4) ->
        run handler (write_file filepath content self) w = (inr (true, self), w4)
  | _ =>
      run handler (write_file filepath content self) w = (inr (false, self), w3)
  end.
Proof.
  intros Hrt Hm Hl Ho. unfold write_file.
  rewrite run_mbind, run_get_self. cbv beta iota.
  rewrite run_mbind, run_perform, Hm, run_mbind, Hl.
  rewrite run_mbind, run_runtime_run_action, Hrt, Ho, run_mbind.
  destruct obs; try reflexivity.
  intros w4 Hl2. now rewrite Hl2.
Qed.


(** X20.  [code_task] asks with the fixed prompt and a ceiling of 5
    iterations and returns the extracted code.  Without file name ([None] or
    the empty string) nothing is written; with one, exactly the returned code
    is written, and the result of [write_file] ([True] or [False]) is
    ignored. *)
Theorem code_task_result
        (self : OpenHandsClient) (task language code : string)
        (filename : option string) (state : State) (w w1 : W) :
  run handler (ask (code_task_prompt task language) 5 self) w
  = (inr (state, self), w1) ->
  _extract_code_from_state state = inr code ->
  (Config.truthy filename = false ->
   run handler (code_task task language filename self) w = (inr (code, self), w1))
  /\ (forall f written w2,
         filename = Some f -> f <> "" ->
         run handler (write_file f code self) w1 = (inr (written, self), w2) ->
         run handler (code_task task language filename self) w
         = (inr (code, self), w2)).
Proof.
  intros Ha He. split.
  - intro Hf. unfold code_task. rewrite run_mbind, Ha, run_mbind, He.
    cbn [mlift mret run]. rewrite run_mbind.
    destruct filename as [f|]; [|reflexivity].
    simpl in Hf. destruct (String.eqb f ""); [reflexivity | discriminate].
  - intros f written w2 -> Hne Hw. unfold code_task.
    rewrite run_mbind, Ha, run_mbind, He. cbn [mlift mret run]. rewrite run_mbind.
    destruct (String.eqb_spec f "") as [E|_]; [contradiction|]. cbn [negb].
    rewrite run_mbind, Hw. reflexivity.
Qed.

(** X21.  When the extraction raises, [code_task] raises the same exception
    after the agent has run, and writes nothing, whatever the file name. *)
Theorem code_task_extraction_error
        (self : OpenHandsClient) (task language : string)
        (filename : option string) (state : State) (e : exn) (w w1 : W) :
  run handler (ask (code_task_prompt task language) 5 self) w
  = (inr (state, self), w1) ->
  _extract_code_from_state state = inl e ->
  run handler (code_task task language filename self) w = (inl e, w1).
Proof.
  intros Ha He. unfold code_task. rewrite run_mbind, Ha, run_mbind, He. reflexivity.
Qed.


(** When [__enter__] raises, neither the body nor [__exit__] runs. *)
Lemma with_client_enter_fails
        {A : Type} (body : OpenHandsSync -> prog eff A)
        (mgr : OpenHandsSync) (e : exn) (w w1 : W) :
  run handler (sync_start mgr) w = (inl e, w1) ->
  run handler (with_client body mgr) w = (inl e, w1).
Proof.
  intro He. unfold with_client, sync__enter__. rewrite !run_bind, He. reflexivity.
Qed.

End Handler.
End ClientMore.

(* ================================================================== *)
(** ** DeepSeek CLI: the other paths of the file commands *)

Module CliMoreFacts.
Import Prog ProgFacts Cli CliMore.

Section Handler.
Context {W : Type}.
Variable handler : forall X : Type, Cli.eff X -> W -> (exn + X) * W.

(** X23.  Only [FileNotFoundError] is caught: any other exception of
    [open]/[read] propagates from [review_file], [explain_file] and
    [fix_file], with nothing printed and the model server not contacted. *)
Theorem read_error_propagates
        (filepath model : string) (error : option string) (e : exn) (w w1 : W) :
  handler string (OpenRead filepath) w = (inl e, w1) ->
  (forall reason, e <> FileNotFoundError reason) ->
  run handler (review_file filepath model) w = (inl e, w1)
  /\ run handler (explain_file filepath model) w = (inl e, w1)
  /\ run handler (fix_file filepath error model) w = (inl e, w1).
Proof.
  intros Hopen Hne.
  assert (E : run handler (read_or_report filepath) w = (inl e, w1)).
  { unfold read_or_report, call. cbn [bind try_except run]. rewrite Hopen.
    cbn [bind try_except run].
    destruct e; try reflexivity. now elim (Hne msg). }
  unfold review_file, explain_file, fix_file. rewrite !run_bind, E.
  repeat split; reflexivity.
Qed.

End Handler.

Section Recording.
Variable console : string -> option exn.
Variable read : string -> exn + string.
Variable reply : string -> string -> exn + string.
Variable stream : string -> string -> exn + (list string * option exn).

Local Abbreviation host := (recording_host console read reply stream).

(** The loop writes the chunks in order. *)
Lemma run_for_each_wrote (chunks : list string) : forall w : list did,
  run host (for_each chunks (fun content => call (StdoutWrite content))) w
  = (inr tt, (w ++ map Wrote chunks)%list).
Proof.
  induction chunks as [|c chunks IH]; intro w; cbn [for_each map].
  - cbn [run]. now rewrite app_nil_r.
  - rewrite run_bind, run_call. cbn [recording_host]. rewrite IH.
    now rewrite <- app_assoc.
Qed.

(** [stream_response] on a recording host whose console prints the header:
    by the course of the stream. *)
Lemma run_stream_response (prompt model : string) (w : list did) :
  console (stream_header model) = None ->
  run host (stream_response prompt model) w
  = match stream model prompt with
    | inr (chunks, None) =>
        (inr (String.concat "" chunks),
         (w ++ [Printed (stream_header model); AskedStream model prompt]
            ++ map Wrote chunks ++ [Wrote (PyStr.nl ++ PyStr.nl)])%list)
    | inr (chunks, Some e) =>
        (inl e,
         (w ++ [Printed (stream_header model); AskedStream model prompt]
            ++ map Wrote chunks)%list)
    | inl e =>
        (inl e, (w ++ [Printed (stream_header model); AskedStream model prompt])%list)
    end.
Proof.
  intro Hc. unfold stream_response. rewrite run_bind, run_call.
  cbn [recording_host]. fold (stream_header model). rewrite Hc.
  rewrite run_bind, run_call. cbn [recording_host].
  destruct (stream model prompt) as [e | [chunks [e|]]].
  - now rewrite <- app_assoc.
  - rewrite run_bind, run_for_each_wrote. cbn [fst snd run].
    now rewrite <- !app_assoc.
  - rewrite run_bind, run_for_each_wrote. cbn [fst snd].
    rewrite run_bind, run_call. cbn [recording_host run].
    f_equal. now rewrite <- !app_assoc.
Qed.

(** X25.  On a host where the file exists and the console prints the
    header, each of [review_file], [explain_file] and [fix_file] opens the
    file once, prints the header, sends one streaming request with the given
    model and the command's prompt around the file's content ([fix_file] with
    the error line only for a non-empty error) and writes the chunks in
    order as they arrive.  When the stream runs to its end, two newlines
    follow and the concatenation of the chunks is returned; when it breaks,
    the chunks that arrived stay written and the exception propagates. *)
Theorem file_commands_success
        (filepath model code : string) (error : option string) :
  read filepath = inr code ->
  console (stream_header model) = None ->
  let outcome prompt :=
    match stream model prompt with
    | inr (chunks, None) =>
        (inr (String.concat "" chunks),
         ([Opened filepath; Printed (stream_header model); AskedStream model prompt]
            ++ map Wrote chunks ++ [Wrote (PyStr.nl ++ PyStr.nl)])%list)
    | inr (chunks, Some e) =>
        (inl e,
         ([Opened filepath; Printed (stream_header model); AskedStream model prompt]
            ++ map Wrote chunks)%list)
    | inl e =>
        (inl e,
         [Opened filepath; Printed (stream_header model); AskedStream model prompt])
    end in
  run host (review_file filepath model) [] = outcome (review_prompt code)
  /\ run host (explain_file filepath model) [] = outcome (explain_prompt code)
  /\ run host (fix_file filepath error model) []
     = outcome (fix_prompt
                  (match error with
                   | Some e => if String.eqb e "" then ""
                               else PyStr.nl ++ "Error: " ++ e
                   | None => ""
                   end) code).
Proof.
  intros Hr Hc outcome.
  assert (E : run host (read_or_report filepath) [] = (inr (inr code), [Opened filepath])).
  { unfold read_or_report, call. cbn [bind try_except run recording_host].
    rewrite Hr. reflexivity. }
  assert (S : forall prompt,
             run host (stream_response prompt model) [Opened filepath]
             = outcome prompt).
  { intro prompt. rewrite (run_stream_response prompt model [Opened filepath] Hc).
    unfold outcome. destruct (stream model prompt) as [e | [chunks [e|]]]; reflexivity. }
  unfold review_file, explain_file, fix_file. rewrite !run_bind, E.
  repeat split; try apply S.
  destruct error as [e|]; [|apply S]. destruct (String.eqb e ""); apply S.
Qed.

(** The text of several writes is the concatenation of their texts. *)
Lemma written_app (w1 w2 : list did) : written (w1 ++ w2) = written w1 ++ written w2.
Proof.
  unfold written. rewrite flat_map_app.
  generalize (flat_map (fun d => match d with Wrote text => [text] | _ => [] end) w1).
  generalize (flat_map (fun d => match d with Wrote text => [text] | _ => [] end) w2).
  intros l2 l1. induction l1 as [|x l1 IH]; [reflexivity|].
  assert (C : forall l, String.concat "" (x :: l) = x ++ String.concat "" l).
  { intros [|y l]; [symmetry; apply PyStrFacts.str_app_empty_r | reflexivity]. }
  cbn [app]. rewrite !C, IH. symmetry. apply PyStrFacts.str_app_assoc.
Qed.

Lemma written_chunks (chunks : list string) :
  written (map Wrote chunks) = String.concat "" chunks.
Proof.
  unfold written. f_equal. induction chunks as [|c l IH]; [reflexivity|].
  cbn [map flat_map app]. now rewrite IH.
Qed.

(** X24.  What [print] wrote is what [stream_response] received: once the
    console has printed the header, the chunks are written in order as they
    arrive.  When the stream runs to its end, [print] has written exactly
    the returned text followed by two newlines; when the stream breaks after
    some chunks, exactly these chunks have been written, without the closing
    newlines, and the exception propagates (the text received is not
    returned). *)
Theorem stream_response_returns_what_it_wrote
        (prompt model : string) (chunks : list string) (ended : option exn)
        (w : list did) :
  console (stream_header model) = None ->
  stream model prompt = inr (chunks, ended) ->
  exists w',
    run host (stream_response prompt model) w
    = (match ended with
       | None => inr (String.concat "" chunks)
       | Some e => inl e
       end, w')
    /\ written w'
       = written w ++ String.concat "" chunks
         ++ match ended with
            | None => PyStr.nl ++ PyStr.nl
            | Some _ => ""
            end.
Proof.
  intros Hc Hs. pose proof (run_stream_response prompt model w Hc) as H.
  rewrite Hs in H. destruct ended as [e|]; eexists; (split; [exact H|]);
    rewrite !written_app, written_chunks.
  - cbn. now rewrite !PyStrFacts.str_app_empty_r.
  - reflexivity.
Qed.

End Recording.

End CliMoreFacts.

(* ================================================================== *)
(** ** The further statements on the sample environment *)

Module MoreSampleFacts.
Import Prog ProgMore Client ClientUse Contract Sample SampleMore Cli CliMore.
Import ExtractMore ConfigMore ClientMore CliMoreFacts.
#[local] Existing Instance sample_ext.

(** Witness for [extract_first_to_last_fence]: an event with two blocks. *)
Lemma extract_first_to_last_fence_witness :
  Extract._extract_code_from_state (option string)
    sample_has_content sample_content_str
    (Extract.Build_State
       [Some ("```python" ++ PyStr.nl ++ "a = 1" ++ PyStr.nl ++ "```" ++ PyStr.nl
              ++ "and" ++ PyStr.nl
              ++ "```python" ++ PyStr.nl ++ "b = 2" ++ PyStr.nl ++ "```")])
  = inr ("a = 1" ++ PyStr.nl ++ "```" ++ PyStr.nl ++ "and" ++ PyStr.nl
         ++ "```python" ++ PyStr.nl ++ "b = 2").
Proof.
  apply (extract_first_to_last_fence (option string)
           sample_has_content sample_content_str [] []
           (Some ("```python" ++ PyStr.nl ++ "a = 1" ++ PyStr.nl ++ "```" ++ PyStr.nl
                  ++ "and" ++ PyStr.nl
                  ++ "```python" ++ PyStr.nl ++ "b = 2" ++ PyStr.nl ++ "```"))
           "" "python"
           ("a = 1" ++ PyStr.nl ++ "```" ++ PyStr.nl ++ "and" ++ PyStr.nl
            ++ "```python" ++ PyStr.nl ++ "b = 2")
           ""); try reflexivity.
  constructor.
Defined.

(** Witness for [extract_one_line_raises]: four backticks. *)
Lemma extract_one_line_raises_witness :
  Extract._extract_code_from_state (option string)
    sample_has_content sample_content_str
    (Extract.Build_State [Some "use ```` here"; None])
  = inl (IndexError "list index out of range").
Proof.
  apply (extract_one_line_raises (option string)
           sample_has_content sample_content_str
           [] [None] (Some "use ```` here") 4 5); try reflexivity.
  - discriminate.
  - repeat constructor.
Defined.

(** Witness for [extract_inline_closing_fence]. *)
Lemma extract_inline_closing_fence_witness :
  Extract._extract_code_from_state (option string)
    sample_has_content sample_content_str
    (Extract.Build_State [Some ("```python" ++ PyStr.nl ++ "x = 1```")])
  = inr "x = 1```".
Proof.
  apply (extract_inline_closing_fence (option string)
           sample_has_content sample_content_str
           [] [] (Some ("```python" ++ PyStr.nl ++ "x = 1```"))
           "" "python" "x = " "" "1"%char); try reflexivity.
  - discriminate.
  - constructor.
Defined.

(** Witness for [extract_empty_block]. *)
Lemma extract_empty_block_witness :
  Extract._extract_code_from_state (option string)
    sample_has_content sample_content_str
    (Extract.Build_State [Some ("Nothing: ```python" ++ PyStr.nl ++ "```")])
  = inr "".
Proof.
  apply (extract_empty_block (option string)
           sample_has_content sample_content_str
           [] [] (Some ("Nothing: ```python" ++ PyStr.nl ++ "```"))
           "Nothing: " "python" ""); try reflexivity.
  constructor.
Defined.

(** Witness for [init_unknown_provider]. *)
Lemma init_unknown_provider_witness :
  run sample_handler (__init__ "mistral" None true) empty_world
  = (inl (ValueError "Unknown provider: mistral. Available: ['deepseek_local', 'deepseek_api', 'openai', 'anthropic']"),
     empty_world).
Proof.
  apply (init_unknown_provider sample_handler "mistral" None true); reflexivity.
Defined.

(** Witness for [init_success]: the client built for [openai]. *)
Lemma init_success_witness :
  exists self w,
    run sample_handler (__init__ "openai" (Some "/tmp/ws") false) empty_world
    = (inr self, w)
    /\ runtime self = None
    /\ workspace_base (config self) = "/tmp/ws"
    /\ model (llm (config self)) = "gpt-4o".
Proof.
  eexists. eexists. split; [reflexivity|].
  destruct (init_success sample_handler "openai" (Some "/tmp/ws") false
              empty_world _ _ eq_refl) as [_ [_ [H3 [_ [H5 _]]]]].
  split; [exact H3|]. split; [exact H5 | reflexivity].
Defined.

(** Witness for [start_sets_runtime]. *)
Lemma start_sets_runtime_witness :
  exists c self' w,
    run sample_handler (start fresh_client) empty_world = (inr (c, self'), w)
    /\ c = self' /\ exists rt, runtime self' = Some rt.
Proof.
  eexists. eexists. eexists. split; [reflexivity|].
  destruct (start_sets_runtime sample_handler fresh_client _ _ empty_world _ eq_refl)
    as [H1 [H2 _]].
  split; [exact H1 | exact H2].
Defined.

(** Witness for [stop_twice_closes_twice]. *)
Lemma stop_twice_closes_twice_witness :
  exists w,
    run sample_handler (mbind stop (fun _ => stop) started_client) empty_world
    = (inr (tt, started_client), w).
Proof.
  eexists.
  eapply (proj2 (stop_twice_closes_twice sample_handler started_client 0
                   empty_world _ _ _ _ eq_refl eq_refl eq_refl eq_refl eq_refl)).
Defined.

(** Witness for [file_actions_before_start]. *)
Lemma file_actions_before_start_witness :
  exists w,
    run sample_handler (write_file "a.txt" "x" fresh_client) empty_world
    = (inl (AttributeError "'NoneType' object has no attribute 'run_action'"), w).
Proof.
  eexists.
  eapply (proj2 (proj2 (proj2
            (file_actions_before_start sample_handler fresh_client "a.txt" "x"
               "http://host" empty_world eq_refl)))); reflexivity.
Defined.



(** Witness for [write_file_result]. *)
Lemma write_file_result_witness :
  exists w, run sample_handler (write_file "a.txt" "x" started_client) empty_world
            = (inr (true, started_client), w).
Proof.
  eexists.
  eapply (write_file_result sample_handler started_client 0 "a.txt" "x"
            (FileWriteObservation "") empty_world _ _ _
            eq_refl eq_refl eq_refl eq_refl).
  reflexivity.
Defined.


(** Witness for [code_task_result]: the agent's history holds no block, so
    an empty file is written. *)
Lemma code_task_result_witness :
  exists w,
    run sample_handler
        (code_task "sort a list" "python" (Some "sort.py") started_client) empty_world
    = (inr ("", started_client), w)
    /\ Dict.lookup "./workspace/sort.py" (files w) = Some "".
Proof.
  eexists. split.
  - eapply (proj2 (code_task_result sample_handler started_client
                     "sort a list" "python" "" (Some "sort.py") _ empty_world _
                     eq_refl eq_refl)
              "sort.py" true _ eq_refl); [discriminate | reflexivity].
  - reflexivity.
Defined.

(** Witness for [code_task_extraction_error]: the agent answers with an
    inline fence. *)
Lemma code_task_extraction_error_witness :
  exists w,
    run (controller_handler [Some "use ```sorted(xs)``` here"])
        (code_task "sort a list" "python" (Some "sort.py") started_client) empty_world
    = (inl (IndexError "list index out of range"), w)
    /\ files w = [].
Proof.
  eexists. split.
  - eapply (code_task_extraction_error
              (controller_handler [Some "use ```sorted(xs)``` here"])
              started_client "sort a list" "python" (Some "sort.py") _ _
              empty_world); reflexivity.
  - reflexivity.
Defined.


(** Witness for [read_error_propagates]: a host that refuses to read. *)
Lemma read_error_propagates_witness :
  run (recording_host Rich.markup_error unreadable (fixed_reply "") (fixed_stream []))
      (review_file "secret.py" DEFAULT_MODEL) []
  = (inl (OtherError "PermissionError" "[Errno 13] Permission denied: 'secret.py'"),
     [Opened "secret.py"]).
Proof.
  refine (proj1 (read_error_propagates
                   (recording_host Rich.markup_error unreadable (fixed_reply "")
                                   (fixed_stream []))
                   "secret.py" DEFAULT_MODEL None _ [] _ eq_refl _)).
  intro reason. discriminate.
Defined.

(** Witness for [stream_response_returns_what_it_wrote]: a stream that runs
    to its end, and one that breaks after its first chunk. *)
Lemma stream_response_returns_what_it_wrote_witness :
  (exists w,
     run (recording_host Rich.markup_error no_files (fixed_reply "")
                         (fixed_stream ["Hel"; "lo"]))
         (stream_response "say hello" DEFAULT_MODEL) []
     = (inr "Hello", w)
     /\ written w = "Hello" ++ PyStr.nl ++ PyStr.nl)
  /\ (exists w,
        run (recording_host Rich.markup_error no_files (fixed_reply "")
                            (broken_stream ["Hel"]
                               (OtherError "ResponseError" "connection lost")))
            (stream_response "say hello" DEFAULT_MODEL) []
        = (inl (OtherError "ResponseError" "connection lost"), w)
        /\ written w = "Hel").
Proof.
  split.
  - apply (stream_response_returns_what_it_wrote
             Rich.markup_error no_files (fixed_reply "") (fixed_stream ["Hel"; "lo"])
             "say hello" DEFAULT_MODEL ["Hel"; "lo"] None []); reflexivity.
  - apply (stream_response_returns_what_it_wrote
             Rich.markup_error no_files (fixed_reply "")
             (broken_stream ["Hel"] (OtherError "ResponseError" "connection lost"))
             "say hello" DEFAULT_MODEL ["Hel"]
             (Some (OtherError "ResponseError" "connection lost")) []); reflexivity.
Defined.

(** Witness for [file_commands_success]: [fix_file] with an empty error
    message asks as without one; a review whose stream breaks keeps the
    chunk that arrived. *)
Lemma file_commands_success_witness :
  run (recording_host Rich.markup_error (one_file "a.py" "x = 1") (fixed_reply "")
                      (fixed_stream ["ok"]))
      (fix_file "a.py" (Some "") DEFAULT_MODEL) []
  = (inr "ok",
     [Opened "a.py"; Printed (stream_header DEFAULT_MODEL);
      AskedStream DEFAULT_MODEL (fix_prompt "" "x = 1");
      Wrote "ok"; Wrote (PyStr.nl ++ PyStr.nl)])
  /\ run (recording_host Rich.markup_error (one_file "a.py" "x = 1") (fixed_reply "")
                         (broken_stream ["The"]
                            (OtherError "ResponseError" "connection lost")))
         (review_file "a.py" DEFAULT_MODEL) []
     = (inl (OtherError "ResponseError" "connection lost"),
        [Opened "a.py"; Printed (stream_header DEFAULT_MODEL);
         AskedStream DEFAULT_MODEL (review_prompt "x = 1");
         Wrote "The"]).
Proof.
  split.
  - apply (proj2 (proj2 (file_commands_success
                           Rich.markup_error
                           (one_file "a.py" "x = 1") (fixed_reply "") (fixed_stream ["ok"])
                           "a.py" DEFAULT_MODEL "x = 1" (Some "") eq_refl eq_refl))).
  - apply (proj1 (file_commands_success
                    Rich.markup_error
                    (one_file "a.py" "x = 1") (fixed_reply "")
                    (broken_stream ["The"] (OtherError "ResponseError" "connection lost"))
                    "a.py" DEFAULT_MODEL "x = 1" None eq_refl eq_refl)).
Defined.

End MoreSampleFacts.
